(** * MiSTeX on the Terasic DECA: the gateware wrapper and its build script

    A shallow embedding of [mistex_boards/terasic_deca_mistex_cape.py]:

    - [Migen]: the fragment of Migen's hardware description objects the file
      builds (signals, [~], [&], [Cat], slices, clock signals, combinatorial
      assignments, black-box instances) with their width and value semantics;
    - [Gateware]: the class [Top], whose constructor wires the DDR3
      controller [ddr3] to the MiSTer top level [sys_top];
    - [Build]: the function [main], in a state and exception monad over the
      file system and the platform object;
    - [Netlist], [Settle], [Steps]: what the facts about the whole netlist
      and about the parts of [main] are stated with. *)

From Stdlib Require Import ZArith List String Ascii Bool Lia DecimalString.
Import ListNotations.

Local Open Scope string_scope.
Local Open Scope list_scope.

(** Python scalars that occur as keyword arguments and as define values. *)
Inductive pyval : Type :=
| PyInt (z : Z)
| PyStr (s : string).

(* ================================================================= *)
(** ** Migen objects *)

Module Migen.

(** A signal is identified by where it was created: in [Top.__init__]
    ([Signal(n)] bound to a Python local), by [platform.request] (a pad of
    the board), inside the LiteX library, or as the clock or reset line of a
    clock domain. *)
Inductive signal : Type :=
| Local (name : string) (n : nat)
| Pad (resource : string) (number : nat) (subsignal : string) (n : nat)
| Lib (name : string) (n : nat)
| DomainClk (cd : string)
| DomainRst (cd : string).

Definition nbits (s : signal) : nat :=
  match s with
  | Local _ n | Pad _ _ _ n | Lib _ n => n
  | DomainClk _ | DomainRst _ => 1
  end.

Definition signal_eqb (a b : signal) : bool :=
  match a, b with
  | Local x n, Local y m => String.eqb x y && Nat.eqb n m
  | Pad r i s n, Pad r' i' s' n' =>
      String.eqb r r' && Nat.eqb i i' && String.eqb s s' && Nat.eqb n n'
  | Lib x n, Lib y m => String.eqb x y && Nat.eqb n m
  | DomainClk x, DomainClk y => String.eqb x y
  | DomainRst x, DomainRst y => String.eqb x y
  | _, _ => false
  end.

(** Signals made in [Top.__init__] itself; library code never holds them. *)
Definition is_local (s : signal) : bool :=
  match s with Local _ _ => true | _ => false end.

(** Everything but a pad is internal to the design; pads are its ports. *)
Definition internal (s : signal) : bool :=
  match s with Pad _ _ _ _ => false | _ => true end.

(** Values: [leds[5]] is [Slice leds 5 6], [ClockSignal()] is
    [ClockSignal "sys"]. *)
#[warnings="-register-all"]
Inductive value : Type :=
| Sig (s : signal)
| Not (a : value)
| And (a b : value)
| Cat (l : list value)
| Slice (s : signal) (start stop : nat)
| ClockSignal (cd : string)
| ResetSignal (cd : string).

Definition index (s : signal) (i : nat) : value := Slice s i (S i).

(** [len(v)] *)
Fixpoint len (v : value) : nat :=
  match v with
  | Sig s => nbits s
  | Not a => len a
  | And a b => Nat.max (len a) (len b)
  | Cat l => fold_right (fun x n => len x + n) 0 l
  | Slice _ start stop => stop - start
  | ClockSignal _ | ResetSignal _ => 1
  end.

(** [x.eq(y)] *)
Inductive statement : Type :=
| Assign (lhs rhs : value).

Inductive direction : Type := Input | Output | InOut.

(** The keyword arguments of [Instance(...)]: [p_NAME = n] is a parameter,
    [i_NAME], [o_NAME] and [io_NAME] are ports. *)
Inductive item : Type :=
| Param (name : string) (n : Z)
| Port (dir : direction) (name : string) (v : value).

Record Instance : Type := { inst_of : string; items : list item }.

(** *** Values of expressions *)

Definition env : Type := signal -> Z.

Definition trunc (n : nat) (x : Z) : Z := Z.land x (Z.ones (Z.of_nat n)).

(** The value of an expression on its own width, [len v] bits: what a port
    of an instance or an operand of [Cat] gets. *)
Fixpoint eval (rho : env) (v : value) : Z :=
  match v with
  | Sig s => trunc (nbits s) (rho s)
  | Not a => trunc (len a) (Z.lnot (eval rho a))
  | And a b => Z.land (eval rho a) (eval rho b)
  | Cat l =>
      fold_right
        (fun x acc => Z.lor (eval rho x) (Z.shiftl acc (Z.of_nat (len x))))
        0%Z l
  | Slice s start stop =>
      trunc (stop - start) (Z.shiftr (trunc (nbits s) (rho s)) (Z.of_nat start))
  | ClockSignal cd => trunc 1 (rho (DomainClk cd))
  | ResetSignal cd => trunc 1 (rho (DomainRst cd))
  end.

(** The value of the source of an assignment, as Migen's evaluator computes
    it with Python's integers and as the emitted Verilog computes it at the
    width of the assignment: [~] inverts every bit, the ones above the width
    of its operand too, and [&] works on the results; only the assignment
    cuts, to the width of its target.  A signal, a slice or a concatenation
    has its own width wherever it stands. *)
Fixpoint wide (rho : env) (v : value) : Z :=
  match v with
  | Not a => Z.lnot (wide rho a)
  | And a b => Z.land (wide rho a) (wide rho b)
  | Sig _ | Cat _ | Slice _ _ _ | ClockSignal _ | ResetSignal _ => eval rho v
  end.

(** A combinatorial assignment holds in [rho] when the target carries the
    source, cut to the target's width. *)
Definition holds (rho : env) (st : statement) : Prop :=
  match st with
  | Assign lhs rhs => eval rho lhs = trunc (len lhs) (wide rho rhs)
  end.

(** *** Drivers *)

(** [drives v s i]: bit [i] of signal [s] is written when [v] is a target. *)
Fixpoint drives (v : value) (s : signal) (i : nat) : bool :=
  match v with
  | Sig s' => signal_eqb s' s && Nat.ltb i (nbits s')
  | Cat l => existsb (fun x => drives x s i) l
  | Slice s' start stop =>
      signal_eqb s' s && Nat.leb start i && Nat.ltb i stop && Nat.ltb i (nbits s')
  | ClockSignal cd => signal_eqb (DomainClk cd) s && Nat.eqb i 0
  | ResetSignal cd => signal_eqb (DomainRst cd) s && Nat.eqb i 0
  | Not _ | And _ _ => false
  end.

Inductive driver : Type :=
| ByComb (st : statement)
| ByPort (inst port : string).

Definition port_drivers (inst : Instance) (s : signal) (i : nat) : list driver :=
  flat_map
    (fun it =>
       match it with
       | Port Output name v | Port InOut name v =>
           if drives v s i then [ByPort (inst_of inst) name] else []
       | _ => []
       end)
    (items inst).

Definition comb_drivers (c : list statement) (s : signal) (i : nat) : list driver :=
  flat_map
    (fun st => match st with
               | Assign lhs _ => if drives lhs s i then [ByComb st] else []
               end)
    c.

(** Signals a value mentions. *)
Fixpoint signals_of (v : value) : list signal :=
  match v with
  | Sig s => [s]
  | Not a => signals_of a
  | And a b => signals_of a ++ signals_of b
  | Cat l => flat_map signals_of l
  | Slice s _ _ => [s]
  | ClockSignal cd => [DomainClk cd]
  | ResetSignal cd => [DomainRst cd]
  end.

Definition mentions (v : value) (s : signal) : bool :=
  existsb (signal_eqb s) (signals_of v).

(** *** Ports of an instance *)

Fixpoint find_port (its : list item) (name : string) : option (direction * value) :=
  match its with
  | [] => None
  | Port d n v :: r => if String.eqb n name then Some (d, v) else find_port r name
  | Param _ _ :: r => find_port r name
  end.

Fixpoint find_param (its : list item) (name : string) : option Z :=
  match its with
  | [] => None
  | Param n z :: r => if String.eqb n name then Some z else find_param r name
  | Port _ _ _ :: r => find_param r name
  end.

Definition port (inst : Instance) (name : string) : option (direction * value) :=
  find_port (items inst) name.

Definition param (inst : Instance) (name : string) : option Z :=
  find_param (items inst) name.

(** The names of the ports of [inst] whose connection mentions [s]. *)
Definition bound_ports (inst : Instance) (s : signal) : list string :=
  flat_map
    (fun it => match it with
               | Port _ name v => if mentions v s then [name] else []
               | Param _ _ => []
               end)
    (items inst).

End Migen.

(* ================================================================= *)
(** ** The gateware: class [Top] *)

Module Gateware.
Import Migen.

(** The board as [Top] sees it: [pins p r i s] is the number of pins of
    subsignal [s] of resource [(r, i)], and [platform.request(r, i).s] is the
    pad signal of that width.  A platform lacking a requested resource makes
    [request] raise, and then there is no design to speak of. *)
Record Platform : Type := { pins : string -> nat -> string -> nat }.

(** The subsignal name of a resource that is a signal itself, as "clk50". *)
Definition whole : string := EmptyString.

Definition request (platform : Platform) (name : string) (number : nat)
  (subsignal : string) : signal :=
  Pad name number subsignal (pins platform name number subsignal).

Inductive submodule : Type :=
| SPIBone (pads : string -> signal)
| LiteScopeAnalyzer (signals : list value) (depth : nat) (samplerate : Z)
    (clock_domain csr_csv : string)
| Core (kind : string).

(** The object under construction ([self]), with the resources taken from
    the platform on its behalf. *)
Record SoC : Type := {
  debug : bool;
  comb : list statement;
  specials : list Instance;
  clock_domains : list string;
  submodules : list (string * submodule);
  wb_masters : list string;
  requested : list (string * nat)
}.

Definition new_SoC : SoC :=
  {| debug := false; comb := []; specials := []; clock_domains := [];
     submodules := []; wb_masters := []; requested := [] |}.

Definition set_debug (self : SoC) (b : bool) : SoC :=
  {| debug := b; comb := comb self; specials := specials self;
     clock_domains := clock_domains self; submodules := submodules self;
     wb_masters := wb_masters self; requested := requested self |}.

Definition add_comb (self : SoC) (sts : list statement) : SoC :=
  {| debug := debug self; comb := comb self ++ sts; specials := specials self;
     clock_domains := clock_domains self; submodules := submodules self;
     wb_masters := wb_masters self; requested := requested self |}.

Definition add_special (self : SoC) (inst : Instance) : SoC :=
  {| debug := debug self; comb := comb self; specials := specials self ++ [inst];
     clock_domains := clock_domains self; submodules := submodules self;
     wb_masters := wb_masters self; requested := requested self |}.

Definition add_clock_domain (self : SoC) (cd : string) : SoC :=
  {| debug := debug self; comb := comb self; specials := specials self;
     clock_domains := clock_domains self ++ [cd]; submodules := submodules self;
     wb_masters := wb_masters self; requested := requested self |}.

Definition add_submodule (self : SoC) (name : string) (m : submodule) : SoC :=
  {| debug := debug self; comb := comb self; specials := specials self;
     clock_domains := clock_domains self;
     submodules := submodules self ++ [(name, m)];
     wb_masters := wb_masters self; requested := requested self |}.

Definition add_wb_master (self : SoC) (bus : string) : SoC :=
  {| debug := debug self; comb := comb self; specials := specials self;
     clock_domains := clock_domains self; submodules := submodules self;
     wb_masters := wb_masters self ++ [bus]; requested := requested self |}.

(** [platform.request(name, number)], for its effect: the resource is
    taken. *)
Definition take (self : SoC) (rs : list (string * nat)) : SoC :=
  {| debug := debug self; comb := comb self; specials := specials self;
     clock_domains := clock_domains self; submodules := submodules self;
     wb_masters := wb_masters self; requested := requested self ++ rs |}.

(** *** [Top.__init__] *)

Section Top.

(** [SoCCore.__init__(self, platform, sys_clk_freq, ident = ..., **kwargs)],
    the constructor of the base class, from LiteX. *)
Variable SoCCore_init :
  SoC -> Platform -> Z -> string -> list (string * pyval) -> SoC.

Definition AW : nat := 26.
Definition DW : nat := 64.

Definition leds : signal := Local "leds" 8.
Definition clk50 : signal := Local "clk50" 1.

Definition avalon_clock         : signal := Local "avalon_clock" 1.
Definition avalon_address       : signal := Local "avalon_address" AW.
Definition avalon_byteenable    : signal := Local "avalon_byteenable" (DW / 8).
Definition avalon_read          : signal := Local "avalon_read" 1.
Definition avalon_readdata      : signal := Local "avalon_readdata" DW.
Definition avalon_burstcount    : signal := Local "avalon_burstcount" 8.
Definition avalon_write         : signal := Local "avalon_write" 1.
Definition avalon_writedata     : signal := Local "avalon_writedata" DW.
Definition avalon_ready         : signal := Local "avalon_ready" 1.
Definition avalon_readdatavalid : signal := Local "avalon_readdatavalid" 1.
Definition avalon_burstbegin    : signal := Local "avalon_burstbegin" 1.
Definition avalon_waitrequest   : signal := Local "avalon_waitrequest" 1.

Definition afi_half_clk       : signal := Local "afi_half_clk" 1.
Definition afi_reset_export_n : signal := Local "afi_reset_export_n" 1.
Definition afi_reset_n        : signal := Local "afi_reset_n" 1.

Definition sys_clk_freq : Z := 150000000.

Definition kwargs : list (string * pyval) :=
  [ ("uart_name",            PyStr "stub");
    ("cpu_type",             PyStr "None");
    ("l2_size",              PyInt 0);
    ("bus_data_width",       PyInt 32);
    ("bus_address_width",    PyInt 32);
    ("integrated_rom_size",  PyInt 0);
    ("integrated_sram_size", PyInt 0) ].

(** [Instance("ddr3", ...)]: the DDR3 controller. *)
Definition ddr3 (platform : Platform) : Instance :=
  let ddram := request platform "ddram" 0 in
  {| inst_of := "ddr3";
     items :=
       [ Port Input  "pll_ref_clk"        (Sig clk50);
         Port Input  "global_reset_n"     (Not (ResetSignal "sys"));
         Port Input  "soft_reset_n"       (Not (ResetSignal "sys"));
         Port Output "afi_clk"            (Sig avalon_clock);
         Port Output "afi_half_clk"       (Sig afi_half_clk);
         Port Output "afi_reset_n"        (Sig afi_reset_export_n);
         Port Output "afi_reset_export_n" (Sig afi_reset_n);

         Port Output "mem_a"       (Sig (ddram "a"));
         Port Output "mem_ba"      (Sig (ddram "ba"));
         Port InOut  "mem_ck"      (Sig (ddram "clk_p"));
         Port InOut  "mem_ck_n"    (Sig (ddram "clk_n"));
         Port Output "mem_cke"     (Sig (ddram "cke"));
         Port Output "mem_cs_n"    (Sig (ddram "cs_n"));
         Port Output "mem_dm"      (Sig (ddram "dm"));
         Port Output "mem_ras_n"   (Sig (ddram "ras_n"));
         Port Output "mem_cas_n"   (Sig (ddram "cas_n"));
         Port Output "mem_we_n"    (Sig (ddram "we_n"));
         Port Output "mem_reset_n" (Sig (ddram "reset_n"));
         Port InOut  "mem_dq"      (Sig (ddram "dq"));
         Port InOut  "mem_dqs"     (Sig (ddram "dqs_p"));
         Port InOut  "mem_dqs_n"   (Sig (ddram "dqs_n"));
         Port Output "mem_odt"     (Sig (ddram "odt"));

         Port Output "avl_ready"         (Sig avalon_ready);
         Port Input  "avl_burstbegin"    (Sig avalon_burstbegin);
         Port Input  "avl_addr"          (Sig avalon_address);
         Port Output "avl_rdata_valid"   (Sig avalon_readdatavalid);
         Port Output "avl_rdata"         (Sig avalon_readdata);
         Port Input  "avl_wdata"         (Sig avalon_writedata);
         Port Input  "avl_be"            (Sig avalon_byteenable);
         Port Input  "avl_read_req"      (Sig avalon_read);
         Port Input  "avl_write_req"     (Sig avalon_write);
         Port Input  "avl_size"          (Sig avalon_burstcount);
         Port Output "local_init_done"   (index leds 5);
         Port Output "local_cal_success" (index leds 6);
         Port Output "local_cal_fail"    (index leds 7);
         Port Output "pll_locked"        (index leds 4) ] |}.

(** [Instance("sys_top", ...)]: the MiSTer top level. *)
Definition sys_top (platform : Platform) : Instance :=
  let sdram       := request platform "sdram" 0 in
  let hdmi        := request platform "hdmi" 0 in
  let hdmi_i2c    := request platform "hdmi_i2c" 0 in
  let hdmi_i2s    := request platform "hdmi_i2s" 0 in
  let sdcard      := request platform "sdcard" 0 in
  let hps_spi     := request platform "hps_spi" 0 in
  let hps_control := request platform "hps_control" 0 in
  {| inst_of := "sys_top";
     items :=
       [ Param "DW" (Z.of_nat DW);
         Param "AW" (Z.of_nat AW);
         Port Input  "CLK_50"       (Sig clk50);

         Port Output "HDMI_I2C_SCL" (Sig (hdmi_i2c "scl"));
         Port InOut  "HDMI_I2C_SDA" (Sig (hdmi_i2c "sda"));
         Port Output "HDMI_MCLK"    (Sig (hdmi_i2s "mclk"));
         Port Output "HDMI_SCLK"    (Sig (hdmi_i2s "sclk"));
         Port Output "HDMI_LRCLK"   (Sig (hdmi_i2s "lrclk"));
         Port Output "HDMI_I2S"     (Sig (hdmi_i2s "i2s"));
         Port Output "HDMI_TX_D"
           (Cat [Sig (hdmi "r"); Sig (hdmi "g"); Sig (hdmi "b")]);
         Port Output "HDMI_TX_CLK"  (Sig (hdmi "clk"));
         Port Output "HDMI_TX_DE"   (Sig (hdmi "de"));
         Port Output "HDMI_TX_HS"   (Sig (hdmi "hsync"));
         Port Output "HDMI_TX_VS"   (Sig (hdmi "vsync"));
         Port Input  "HDMI_TX_INT"  (Sig (hdmi "int"));

         Port Output "SDRAM_A"    (Sig (sdram "a"));
         Port InOut  "SDRAM_DQ"   (Sig (sdram "dq"));
         Port Output "SDRAM_nWE"  (Sig (sdram "we_n"));
         Port Output "SDRAM_nCAS" (Sig (sdram "cas_n"));
         Port Output "SDRAM_nRAS" (Sig (sdram "ras_n"));
         Port Output "SDRAM_nCS"  (Sig (sdram "cs_n"));
         Port Output "SDRAM_BA"   (Sig (sdram "ba"));
         Port Output "SDRAM_CLK"  (Sig (request platform "sdram_clock" 0 whole));

         Port Output "LED_USER"  (index leds 2);
         Port Output "LED_HDD"   (index leds 1);
         Port Output "LED_POWER" (index leds 0);
         Port Input  "BTN_OSD"   (Sig (request platform "user_btn" 0 whole));
         Port Input  "BTN_RESET" (Sig (request platform "user_btn" 1 whole));

         Port Output "SD_SPI_CS"   (Sig (sdcard "sel"));
         Port Input  "SD_SPI_MISO" (index (sdcard "data") 0);
         Port Output "SD_SPI_CLK"  (Sig (sdcard "clk"));
         Port Output "SD_SPI_MOSI" (Sig (sdcard "cmd"));

         Port Input  "HPS_SPI_MOSI" (Sig (hps_spi "mosi"));
         Port Output "HPS_SPI_MISO" (Sig (hps_spi "miso"));
         Port Input  "HPS_SPI_CLK"  (Sig (hps_spi "clk"));
         Port Input  "HPS_SPI_CS"   (Sig (hps_spi "cs_n"));

         Port Input  "HPS_FPGA_ENABLE" (Sig (hps_control "fpga_enable"));
         Port Input  "HPS_OSD_ENABLE"  (Sig (hps_control "osd_enable"));
         Port Input  "HPS_IO_ENABLE"   (Sig (hps_control "io_enable"));
         Port Input  "HPS_CORE_RESET"  (Sig (hps_control "core_reset"));

         Port Input  "ddr3_clk_i"           (Sig avalon_clock);
         Port Output "ddr3_address_o"       (Sig avalon_address);
         Port Output "ddr3_byteenable_o"    (Sig avalon_byteenable);
         Port Output "ddr3_read_o"          (Sig avalon_read);
         Port Input  "ddr3_readdata_i"      (Sig avalon_readdata);
         Port Output "ddr3_burstcount_o"    (Sig avalon_burstcount);
         Port Output "ddr3_write_o"         (Sig avalon_write);
         Port Output "ddr3_writedata_o"     (Sig avalon_writedata);
         Port Input  "ddr3_waitrequest_i"   (Sig avalon_waitrequest);
         Port Input  "ddr3_readdatavalid_i" (Sig avalon_readdatavalid) ] |}.

Definition user_leds (platform : Platform) : list value :=
  map (fun l => Sig (request platform "user_led" l whole)) (seq 0 8).

Definition analyzer_signals : list value :=
  [ Sig avalon_clock;
    Sig avalon_address;
    Sig avalon_waitrequest;
    Sig avalon_read;
    Sig avalon_readdatavalid;
    Sig avalon_write;
    Sig avalon_burstcount;
    Sig avalon_byteenable ].

Definition Top (platform : Platform) : SoC :=
  let self := new_SoC in
  let self :=
    take self
      [ ("sdram", 0); ("ddram", 0); ("hps_i2c", 0); ("hdmi", 0);
        ("hdmi_i2c", 0); ("hdmi_i2s", 0); ("sdcard", 0); ("hps_spi", 0);
        ("hps_control", 0) ] in

  let self := take self (map (fun l => ("user_led", l)) (seq 0 8)) in
  let self := add_comb self [Assign (Cat (user_leds platform)) (Not (Sig leds))] in

  let self := take self [("clk50", 0)] in
  let self := add_comb self [Assign (Sig clk50) (Sig (request platform "clk50" 0 whole))] in

  let self := set_debug self false in

  let self := add_clock_domain self "sys" in
  let self := add_clock_domain self "avalon" in

  let self :=
    SoCCore_init self platform sys_clk_freq
      "LiteX SoC on MiSTeX / Terasic DECA cape" kwargs in

  let self := add_special self (ddr3 platform) in

  let self :=
    add_comb self
      [ Assign (Sig avalon_burstbegin) (And (Sig avalon_write) (Sig avalon_read));
        Assign (Sig avalon_waitrequest) (Not (Sig avalon_ready));
        Assign (ClockSignal "avalon") (Sig avalon_clock);
        Assign (ClockSignal "sys") (ClockSignal "avalon") ] in

  let self := take self [("sdram_clock", 0); ("user_btn", 0); ("user_btn", 1)] in
  let self := add_special self (sys_top platform) in

  if debug self then
    let self := take self [("spibone", 0)] in
    let spibone := SPIBone (request platform "spibone" 0) in
    let self := add_submodule self "spibone" spibone in
    let self := add_wb_master self "spibone.bus" in
    add_submodule self "analyzer"
      (LiteScopeAnalyzer analyzer_signals 4096 150000000 "sys" "analyzer.csv")
  else self.

End Top.

(** *** The base class

    What a constructor like [SoCCore.__init__] (LiteX) may add to [self]:
    logic, instances, submodules, bus masters and requests of its own. *)
Record Library : Type := {
  lib_comb : list statement;
  lib_specials : list Instance;
  lib_submodules : list (string * submodule);
  lib_wb_masters : list string;
  lib_requested : list (string * nat)
}.

Definition extend (self : SoC) (lib : Library) : SoC :=
  {| debug := debug self;
     comb := comb self ++ lib_comb lib;
     specials := specials self ++ lib_specials lib;
     clock_domains := clock_domains self;
     submodules := submodules self ++ lib_submodules lib;
     wb_masters := wb_masters self ++ lib_wb_masters lib;
     requested := requested self ++ lib_requested lib |}.

Definition is_debug_module (m : submodule) : bool :=
  match m with
  | SPIBone _ | LiteScopeAnalyzer _ _ _ _ _ => true
  | Core _ => false
  end.

Definition drives_local (v : value) : bool :=
  existsb is_local (signals_of v).

Definition item_drives_local (it : item) : bool :=
  match it with
  | Port Output _ v | Port InOut _ v => drives_local v
  | _ => false
  end.

(** Library logic cannot write the signals local to [Top.__init__], and the
    LiteX core brings no SPIBone and no LiteScope of its own. *)
Definition library_ok (lib : Library) : bool :=
  forallb (fun st => match st with Assign lhs _ => negb (drives_local lhs) end)
    (lib_comb lib)
  && forallb (fun inst => forallb (fun it => negb (item_drives_local it)) (items inst))
       (lib_specials lib)
  && forallb (fun nm => negb (is_debug_module (snd nm))) (lib_submodules lib)
  && forallb (fun b => negb (String.eqb b "spibone.bus")) (lib_wb_masters lib)
  && forallb (fun r => negb (String.eqb (fst r) "spibone")) (lib_requested lib).

(** The assumption on the base class, where one is needed: its constructor
    extends [self] by such a library and touches nothing else of it, the
    attribute [debug] in particular. *)
Definition only_extends
  (init : SoC -> Platform -> Z -> string -> list (string * pyval) -> SoC) : Prop :=
  forall self platform freq ident kwargs,
    exists lib,
      init self platform freq ident kwargs = extend self lib
      /\ library_ok lib = true.


(** *** What a design means *)

Definition values_of (self : SoC) : list value :=
  flat_map (fun st => match st with Assign l r => [l; r] end) (comb self)
  ++ flat_map
       (fun inst =>
          flat_map (fun it => match it with Port _ _ v => [v] | Param _ _ => [] end)
            (items inst))
       (specials self).

Definition signals (self : SoC) : list signal :=
  flat_map signals_of (values_of self).

Definition drivers (self : SoC) (s : signal) (i : nat) : list driver :=
  comb_drivers (comb self) s i
  ++ flat_map (fun inst => port_drivers inst s i) (specials self).

(** A signal that an output or inout port of an instance is connected to,
    in one bit at least, is a wire of the emitted design. *)
Definition port_driven (self : SoC) (s : signal) : bool :=
  existsb
    (fun i => match flat_map (fun inst => port_drivers inst s i) (specials self) with
              | [] => false
              | _ :: _ => true
              end)
    (seq 0 (nbits s)).

(** Every other internal signal is emitted as a register declared with its
    reset value, which is 0 for every [Signal(...)] and every reset line
    made here: a bit of it that nothing drives stays 0.  A bit of a wire
    that no port drives has no value in the design, and nothing is asked
    of it. *)
Definition keeps_reset (rho : env) (self : SoC) (s : signal) : bool :=
  port_driven self s
  || forallb
       (fun i => match drivers self s i with
                 | [] => negb (Z.testbit (rho s) (Z.of_nat i))
                 | _ :: _ => true
                 end)
       (seq 0 (nbits s)).

(** [rho] is a state of the wires of the elaborated design: every
    combinatorial assignment holds, and the undriven bits of the internal
    registers are at reset. *)
Record models (rho : env) (self : SoC) : Prop := {
  models_comb : Forall (holds rho) (comb self);
  models_reset :
    Forall (fun s => internal s = true -> keeps_reset rho self s = true)
      (signals self)
}.

(** A base class whose constructor does nothing. *)
Definition bare : SoC -> Platform -> Z -> string -> list (string * pyval) -> SoC :=
  fun self _ _ _ _ => self.

(** The signals of the memory bus: the controller's port, the top level's
    port, the signal between them and its width. *)
Definition bus_pairs : list (string * string * signal * nat) :=
  [ ("avl_addr",        "ddr3_address_o",       avalon_address,       26);
    ("avl_be",          "ddr3_byteenable_o",    avalon_byteenable,    8);
    ("avl_read_req",    "ddr3_read_o",          avalon_read,          1);
    ("avl_rdata",       "ddr3_readdata_i",      avalon_readdata,      64);
    ("avl_size",        "ddr3_burstcount_o",    avalon_burstcount,    8);
    ("avl_write_req",   "ddr3_write_o",         avalon_write,         1);
    ("avl_wdata",       "ddr3_writedata_o",     avalon_writedata,     64);
    ("avl_rdata_valid", "ddr3_readdatavalid_i", avalon_readdatavalid, 1) ].

Definition opposite (a b : direction) : bool :=
  match a, b with
  | Input, Output | Output, Input => true
  | _, _ => false
  end.

(** Both ports are connected to the signal itself, one drives it and the
    other reads it, and no other port of either instance mentions it. *)
Definition paired (platform : Platform) (row : string * string * signal * nat)
  : Prop :=
  let '(avl, top, s, w) := row in
  exists d d',
    port (ddr3 platform) avl = Some (d, Sig s)
    /\ port (sys_top platform) top = Some (d', Sig s)
    /\ opposite d d' = true
    /\ nbits s = w
    /\ bound_ports (ddr3 platform) s = [avl]
    /\ bound_ports (sys_top platform) s = [top].

End Gateware.

(* ================================================================= *)
(** ** The build script: [main] *)

Module Build.

(** *** Python dictionaries

    A [dict] keeps its keys in insertion order and holds each key once;
    the keys of a manifest's [defines] are macro names, strings. *)

Definition dict (V : Type) : Type := list (string * V).

Definition keys {V} (d : dict V) : list string := map fst d.

Fixpoint dict_get {V} (d : dict V) (k : string) : option V :=
  match d with
  | [] => None
  | (k', v) :: r => if String.eqb k' k then Some v else dict_get r k
  end.

(** [d[k] = v] *)
Fixpoint dict_set {V} (d : dict V) (k : string) (v : V) : dict V :=
  match d with
  | [] => [(k, v)]
  | (k', v') :: r =>
      if String.eqb k' k then (k', v) :: r else (k', v') :: dict_set r k v
  end.

(** [d.update(other)] *)
Definition dict_update {V} (d other : dict V) : dict V :=
  fold_left (fun acc kv => dict_set acc (fst kv) (snd kv)) other d.


(** *** YAML documents, as [yaml.load] returns them *)
#[warnings="-register-all"]
Inductive yaml : Type :=
| YNull
| YBool (b : bool)
| YInt (z : Z)
| YStr (s : string)
| YSeq (l : list yaml)
| YMap (m : list (string * yaml)).

(** *** Board resources *)
#[warnings="-register-all"]
Inductive constraint : Type :=
| Pins (identifiers : list string)
| IOStandard (name : string)
| Subsignal (name : string) (constraints : list constraint).

Definition resource : Type := string * nat * list constraint.

(** The platform object: the resources that can be requested and the
    commands for the toolchain, in the order they were added. *)
Record PlatformObj : Type := {
  io : list resource;
  commands : list string
}.

(** *** The world [main] runs in *)

Inductive exn : Type :=
| FileNotFoundError (path : string)
| YAMLError (msg : string)
| AttributeError (attr : string)
| UnboundLocalError (name : string)
| Failure (msg : string).

Record World : Type := {
  files : list (string * string);
  cwd : string;
  platform : option PlatformObj
}.

Definition M (A : Type) : Type := World -> (exn + A) * World.

Definition ret {A} (a : A) : M A := fun w => (inr a, w).

Definition raise {A} (e : exn) : M A := fun w => (inl e, w).

Definition bind {A B} (c : M A) (k : A -> M B) : M B :=
  fun w => match c w with
           | (inl e, w') => (inl e, w')
           | (inr a, w') => k a w'
           end.

Notation "x <- c ;; k" := (bind c (fun x => k))
  (at level 61, c at next level, right associativity).
Notation "c ;;; k" := (bind c (fun _ => k))
  (at level 61, right associativity).

Fixpoint for_each {A} (l : list A) (body : A -> M unit) : M unit :=
  match l with
  | [] => ret tt
  | x :: r => body x ;;; for_each r body
  end.

Definition quote : string := String (ascii_of_nat 34) EmptyString.

Definition starts_with_sep (s : string) : bool :=
  match s with
  | String c _ => Ascii.eqb c "/"
  | EmptyString => false
  end.

Fixpoint ends_with_sep (s : string) : bool :=
  match s with
  | EmptyString => false
  | String c EmptyString => Ascii.eqb c "/"
  | String _ r => ends_with_sep r
  end.

(** [os.path.join(a, b)] *)
Definition join (a b : string) : string :=
  if starts_with_sep b then b
  else if (String.eqb a EmptyString || ends_with_sep a)%bool then (a ++ b)%string
  else (a ++ "/" ++ b)%string.

(** [open(path, 'r')], read in full. *)
Definition open (path : string) : M string :=
  fun w => match dict_get (files w) path with
           | Some text => (inr text, w)
           | None => (inl (FileNotFoundError path), w)
           end.

Definition getcwd : M string := fun w => (inr (cwd w), w).

Definition set_platform (w : World) (p : PlatformObj) : World :=
  {| files := files w; cwd := cwd w; platform := Some p |}.

Definition with_platform (f : PlatformObj -> PlatformObj) : M unit :=
  fun w => match platform w with
           | Some p => (inr tt, set_platform w (f p))
           | None => (inl (UnboundLocalError "platform"), w)
           end.

Definition get_platform : M PlatformObj :=
  fun w => match platform w with
           | Some p => (inr p, w)
           | None => (inl (UnboundLocalError "platform"), w)
           end.

(** [platform.add_platform_command(cmd)] *)
Definition add_platform_command (cmd : string) : M unit :=
  with_platform (fun p => {| io := io p; commands := commands p ++ [cmd] |}).

(** [platform.add_extension(ext)] *)
Definition add_extension (ext : list resource) : M unit :=
  with_platform (fun p => {| io := io p ++ ext; commands := commands p |}).

(** [mapping.get(key, default)]; anything but a mapping has no [get]. *)
Definition yaml_get (y : yaml) (key : string) (default : yaml) : M yaml :=
  match y with
  | YMap m => ret (match dict_get m key with Some v => v | None => default end)
  | _ => raise (AttributeError "get")
  end.

(** [defines.update({...})] followed by [defines.items()]; anything but a
    mapping has no [update]. *)
Definition update (defines : yaml) (other : dict yaml) : M (dict yaml) :=
  match defines with
  | YMap d => ret (dict_update d other)
  | _ => raise (AttributeError "update")
  end.

(** Number of pin identifiers in [Pins(...)], whose arguments are split at
    white space. *)
Fixpoint count_words (s : string) (inside : bool) : nat :=
  match s with
  | EmptyString => 0
  | String c r =>
      if Ascii.eqb c " " then count_words r false
      else (if inside then 0 else 1) + count_words r true
  end.

Definition pin_count (cs : list constraint) : nat :=
  fold_right
    (fun c n => match c with
                | Pins ids => fold_right (fun s m => count_words s false + m) 0 ids + n
                | _ => n
                end)
    0 cs.

Fixpoint find_subsignal (cs : list constraint) (name : string) : list constraint :=
  match cs with
  | [] => []
  | Subsignal n sub :: r => if String.eqb n name then sub else find_subsignal r name
  | _ :: r => find_subsignal r name
  end.

Fixpoint find_resource (l : list resource) (name : string) (number : nat)
  : list constraint :=
  match l with
  | [] => []
  | (n, i, cs) :: r =>
      if (String.eqb n name && Nat.eqb i number)%bool then cs
      else find_resource r name number
  end.

(** The platform as [Top] requests from it. *)
Definition platform_of (p : PlatformObj) : Gateware.Platform :=
  {| Gateware.pins := fun name number subsignal =>
       let cs := find_resource (io p) name number in
       if String.eqb subsignal EmptyString then pin_count cs
       else pin_count (find_subsignal cs subsignal) |}.

(** The fixed toolchain settings, lines 254 to 282. *)
Definition quartus_settings : list string :=
  [ "set_global_assignment -name TIMEQUEST_MULTICORNER_ANALYSIS OFF";
    "set_global_assignment -name OPTIMIZE_POWER_DURING_FITTING OFF";
    "set_global_assignment -name FINAL_PLACEMENT_OPTIMIZATION ALWAYS";
    ("set_global_assignment -name FITTER_EFFORT " ++ quote ++ "STANDARD FIT" ++ quote)%string;
    ("set_global_assignment -name OPTIMIZATION_MODE " ++ quote ++ "HIGH PERFORMANCE EFFORT" ++ quote)%string;
    "set_global_assignment -name ALLOW_POWER_UP_DONT_CARE ON";
    ("set_global_assignment -name QII_AUTO_PACKED_REGISTERS " ++ quote ++ "SPARSE AUTO" ++ quote)%string;
    "set_global_assignment -name ROUTER_LCELL_INSERTION_AND_LOGIC_DUPLICATION ON";
    "set_global_assignment -name PHYSICAL_SYNTHESIS_COMBO_LOGIC ON";
    "set_global_assignment -name PHYSICAL_SYNTHESIS_EFFORT EXTRA";
    "set_global_assignment -name PHYSICAL_SYNTHESIS_REGISTER_DUPLICATION ON";
    "set_global_assignment -name PHYSICAL_SYNTHESIS_REGISTER_RETIMING ON";
    "set_global_assignment -name OPTIMIZATION_TECHNIQUE SPEED";
    "set_global_assignment -name MUX_RESTRUCTURE ON";
    "set_global_assignment -name REMOVE_REDUNDANT_LOGIC_CELLS ON";
    "set_global_assignment -name AUTO_DELAY_CHAINS_FOR_HIGH_FANOUT_INPUT_PINS ON";
    "set_global_assignment -name PHYSICAL_SYNTHESIS_COMBO_LOGIC_FOR_AREA ON";
    "set_global_assignment -name ADV_NETLIST_OPT_SYNTH_WYSIWYG_REMAP ON";
    "set_global_assignment -name SYNTH_GATED_CLOCK_CONVERSION ON";
    "set_global_assignment -name PRE_MAPPING_RESYNTHESIS ON";
    "set_global_assignment -name ROUTER_CLOCKING_TOPOLOGY_ANALYSIS ON";
    "set_global_assignment -name ECO_OPTIMIZE_TIMING ON";
    "set_global_assignment -name PERIPHERY_TO_CORE_PLACEMENT_AND_ROUTING_OPTIMIZATION ON";
    "set_global_assignment -name PHYSICAL_SYNTHESIS_ASYNCHRONOUS_SIGNAL_PIPELINING ON";
    "set_global_assignment -name ALM_REGISTER_PACKING_EFFORT LOW";
    "set_global_assignment -name OPTIMIZE_POWER_DURING_SYNTHESIS OFF";
    "set_global_assignment -name ROUTER_REGISTER_DUPLICATION ON";
    "set_global_assignment -name FITTER_AGGRESSIVE_ROUTABILITY_OPTIMIZATION ALWAYS";
    "set_global_assignment -name SEED 1" ].

(** The dictionary literal of lines 285 to 300. *)
Definition baseline_defines : dict yaml :=
  [ ("ALTERA", YInt 1);
    ("OSD_HEADER", YInt 1);
    ("CRG_AUDIO_CLK", YInt 1);
    ("HARDWARE_HDMI_INIT", YInt 1);
    ("NO_SCANDOUBLER", YInt 1);
    ("DISABLE_VGA", YInt 1);
    ("SKIP_SHADOWMASK", YInt 1);
    ("SKIP_IIR_FILTER", YInt 1);
    ("MISTER_DISABLE_YC", YInt 1);
    ("MISTER_DISABLE_ALSA", YInt 1) ].

(** The extension of lines 305 to 348. *)
Definition cape_extension : list resource :=
  [ ("hps_i2c", 0,
      [ Subsignal "sda" [Pins ["P9:26"]];
        Subsignal "scl" [Pins ["P9:27"]];
        IOStandard "3.3-V LVTTL" ]);
    ("hps_spi", 0,
      [ Subsignal "mosi" [Pins ["P9:23"]];
        Subsignal "miso" [Pins ["P9:24"]];
        Subsignal "clk"  [Pins ["P9:22"]];
        Subsignal "cs_n" [Pins ["P9:21"]];
        IOStandard "3.3-V LVTTL" ]);
    ("hps_control", 0,
      [ Subsignal "fpga_enable" [Pins ["P9:18"]];
        Subsignal "osd_enable"  [Pins ["P9:19"]];
        Subsignal "io_enable"   [Pins ["P9:20"]];
        Subsignal "core_reset"  [Pins ["P9:17"]];
        IOStandard "3.3-V LVTTL" ]);
    ("sdram_clock", 0, [ Pins ["P8:22"]; IOStandard "3.3-V LVTTL" ]);
    ("sdram", 0,
      [ Subsignal "a" [Pins
          [ "P8:39 P8:40 P8:41 P8:42 P8:30 P8:27 P8:28 P8:25";
            "P8:26 P8:23 P8:38 P8:24 P8:21" ]];
        Subsignal "ba"    [Pins ["P8:36 P8:37"]];
        Subsignal "cs_n"  [Pins ["P8:35"]];
        Subsignal "ras_n" [Pins ["P8:34"]];
        Subsignal "cas_n" [Pins ["P8:33"]];
        Subsignal "we_n"  [Pins ["P8:29"]];
        Subsignal "dq" [Pins
          [ "P8:3  P8:4  P8:5  P8:6  P8:7  P8:8  P8:9  P8:10 ";
            "P8:20 P8:19 P8:18 P8:17 P8:16 P8:15 P8:12 P8:11" ]];
        IOStandard "3.3-V LVTTL" ]);
    ("spibone", 0,
      [ Subsignal "clk"  [Pins ["P8:13"]];
        Subsignal "mosi" [Pins ["P8:31"]];
        Subsignal "miso" [Pins ["P8:43"]];
        Subsignal "cs_n" [Pins ["P9:41"]];
        IOStandard "3.3-V LVCMOS" ]) ].

(** *** [main] *)

Record BuilderArgs : Type := {
  build_backend : string;
  gateware_dir : string;
  software_dir : string;
  compile_gateware : bool;
  compile_software : bool;
  csr_csv : string
}.

(** What [main] calls outside this file. *)
Record Externals : Type := {
  (** LiteX, litex-boards and PyYAML *)
  SoCCore_init :
    Gateware.SoC -> Gateware.Platform -> Z -> string -> list (string * pyval)
    -> Gateware.SoC;
  terasic_deca_io : list resource;
  (** the commands the board's platform object is made with *)
  terasic_deca_commands : list string;
  yaml_load : string -> exn + yaml;
  (** [Builder(Top(platform), ...)], which stands for the elaboration of
      [Top] too: a request the platform cannot serve makes it raise *)
  Builder : Type;
  Builder_init : Gateware.SoC -> BuilderArgs -> M Builder;
  Builder_build : Builder -> string -> M unit;
  (** Python's [str], as the f-string applies it to a define's value *)
  str : yaml -> string;
  (** the helpers from [util], which work on the platform object and the
      file system *)
  add_designfiles : string -> yaml -> string -> M unit;
  generate_build_id : string -> M unit;
  add_mainfile : string -> yaml -> M unit;
  get_build_dir : string -> M string;
  get_build_name : string -> M string;
  (** [os.system]: runs the command, which does to the world what it does,
      and returns its exit status; it raises nothing *)
  os_system : string -> World -> Z * World
}.

Section Main.

Variable X : Externals.

Definition system (cmd : string) : M Z :=
  fun w => let (status, w') := os_system X cmd w in (inr status, w').

(** [yaml.load(open(path, 'r'), Loader=yaml.FullLoader)] *)
Definition load (path : string) : M yaml :=
  text <- open path ;;
  match yaml_load X text with
  | inl e => raise e
  | inr doc => ret doc
  end.

(** [terasic_deca.Platform()]: the platform object of litex-boards, with
    the board's resources and the commands it starts with. *)
Definition Platform_new : M unit :=
  fun w =>
    (inr tt,
     set_platform w
       {| io := terasic_deca_io X; commands := terasic_deca_commands X |}).

Definition verilog_macro (key : string) (value : yaml) : string :=
  ("set_global_assignment -name VERILOG_MACRO "
     ++ quote ++ key ++ "=" ++ str X value ++ quote)%string.

(** Lines 242 to 363: everything up to and including [builder.build]; the
    result is the pair of [build_dir] and [build_name]. *)
Definition synthesize (core : string) : M (string * string) :=
  let coredir := join "cores" core in

  mistex_yaml <- load (join coredir "MiSTeX.yaml") ;;

  Platform_new ;;;

  add_designfiles X coredir mistex_yaml "quartus" ;;;

  generate_build_id X coredir ;;;
  add_mainfile X coredir mistex_yaml ;;;

  here <- getcwd ;;
  add_platform_command
    ("set_global_assignment -name QIP_FILE " ++ here ++ "/rtl/deca-ddr3/ddr3.qip")%string ;;;
  for_each quartus_settings add_platform_command ;;;

  defines <- yaml_get mistex_yaml "defines" (YMap []) ;;
  defines <- update defines baseline_defines ;;

  for_each defines
    (fun kv => add_platform_command (verilog_macro (fst kv) (snd kv))) ;;;

  add_extension cape_extension ;;;

  build_dir <- get_build_dir X core ;;
  build_name <- get_build_name X core ;;

  p <- get_platform ;;
  builder <- Builder_init X (Gateware.Top (SoCCore_init X) (platform_of p))
    {| build_backend := "litex";
       gateware_dir := build_dir;
       software_dir := join build_dir "software";
       compile_gateware := true;
       compile_software := true;
       csr_csv := "csr.csv" |} ;;

  name <- get_build_name X core ;;
  Builder_build X builder name ;;;
  ret (build_dir, build_name).

Definition quartus_cpf (build_dir build_name : string) : string :=
  ("quartus_cpf -c -q 24.0MHz -g 3.3 -n p "
     ++ build_dir ++ "/" ++ build_name ++ ".sof "
     ++ build_dir ++ "/" ++ build_name ++ ".svf")%string.

(** [main(core)]: [synthesize], then line 365, the conversion of the
    bitstream with [quartus_cpf]. *)
Definition main (core : string) : M unit :=
  names <- synthesize core ;;
  _ <- system (quartus_cpf (fst names) (snd names)) ;;
  ret tt.

(** The manifest of a core, and what it is for it to be missing or
    malformed. *)
Definition manifest (core : string) : string :=
  join (join "cores" core) "MiSTeX.yaml".

Definition manifest_error (w : World) (core : string) : Prop :=
  dict_get (files w) (manifest core) = None
  \/ exists text e,
       dict_get (files w) (manifest core) = Some text
       /\ yaml_load X text = inl e.

End Main.

(** The same externals with a converter that does the same to the world and
    exits with status 0. *)
Definition succeeding (X : Externals) : Externals :=
  {| SoCCore_init := SoCCore_init X;
     terasic_deca_io := terasic_deca_io X;
     terasic_deca_commands := terasic_deca_commands X;
     yaml_load := yaml_load X;
     Builder := Builder X;
     Builder_init := Builder_init X;
     Builder_build := Builder_build X;
     str := str X;
     add_designfiles := add_designfiles X;
     generate_build_id := generate_build_id X;
     add_mainfile := add_mainfile X;
     get_build_dir := get_build_dir X;
     get_build_name := get_build_name X;
     os_system := fun cmd w => (0%Z, snd (os_system X cmd w)) |}.

(** The caller of [main] can tell that the conversion failed: what [main]
    gives back differs from what it gives back when the conversion does the
    same and succeeds. *)
Definition failure_reported (X : Externals) (core : string) (w : World) : Prop :=
  main X core w <> main (succeeding X) core w.

End Build.

(* ================================================================= *)
(** ** Sample inputs *)

Module Sample.
Import Migen Gateware Build.

(** A board for the examples: eight single user LEDs, 8-bit colour
    channels, a 15-bit DDR3 address bus and so on; every other pad is one
    pin wide. *)
Definition widths : list (string * string * nat) :=
  [ ("ddram", "a", 15); ("ddram", "ba", 3); ("ddram", "dm", 2);
    ("ddram", "dq", 16); ("ddram", "dqs_p", 2); ("ddram", "dqs_n", 2);
    ("hdmi", "r", 8); ("hdmi", "g", 8); ("hdmi", "b", 8);
    ("sdram", "a", 13); ("sdram", "ba", 2); ("sdram", "dq", 16);
    ("sdcard", "data", 4) ].

Fixpoint width_of (l : list (string * string * nat)) (r s : string) : nat :=
  match l with
  | [] => 1
  | (r', s', n) :: t =>
      if (String.eqb r' r && String.eqb s' s)%bool then n else width_of t r s
  end.

Definition board : Platform :=
  {| pins := fun r _ s => width_of widths r s |}.

(** A core that brings a controller and a timer and resets a register of
    its own. *)
Definition soc_library : Library :=
  {| lib_comb := [Assign (Sig (Lib "ctrl_reset" 1)) (ResetSignal "sys")];
     lib_specials := [];
     lib_submodules := [("ctrl", Core "SoCController"); ("timer0", Core "Timer")];
     lib_wb_masters := [];
     lib_requested := [] |}.

Definition soc_core : SoC -> Platform -> Z -> string -> list (string * pyval) -> SoC :=
  fun self _ _ _ _ => extend self soc_library.

(** Wires of the design on [board]: the controller is ready and its clock
    high, the top level reads and writes at once, and the status outputs
    give [leds] the value 0b01110101. *)
Definition wires : list (signal * Z) :=
  [ (leds, 117%Z);
    (request board "user_led" 1 whole, 1%Z);
    (request board "user_led" 3 whole, 1%Z);
    (request board "user_led" 7 whole, 1%Z);
    (request board "clk50" 0 whole, 1%Z);
    (clk50, 1%Z);
    (avalon_clock, 1%Z);
    (DomainClk "avalon", 1%Z);
    (DomainClk "sys", 1%Z);
    (avalon_ready, 1%Z);
    (avalon_write, 1%Z);
    (avalon_read, 1%Z);
    (avalon_burstbegin, 1%Z);
    (avalon_address, 12345%Z);
    (request board "hdmi" 0 "r", 171%Z);
    (request board "hdmi" 0 "g", 205%Z);
    (request board "hdmi" 0 "b", 239%Z) ].

Fixpoint lookup (l : list (signal * Z)) (s : signal) : Z :=
  match l with
  | [] => 0%Z
  | (s', z) :: t => if signal_eqb s' s then z else lookup t s
  end.

Definition rho : env := lookup wires.

(** A manifest that sets one define the script also sets and one of its
    own. *)
Definition manifest_text : string := "defines: {NO_SCANDOUBLER: 0, DEBUG_LEVEL: 2}".

Definition manifest_doc : yaml :=
  YMap [("defines", YMap [("NO_SCANDOUBLER", YInt 0); ("DEBUG_LEVEL", YInt 2)])].

Definition write_file (path text : string) : M unit :=
  fun w => (inr tt,
            {| files := dict_set (files w) path text; cwd := cwd w;
               platform := platform w |}).

(** Externals in which synthesis leaves a [.sof] file and the conversion
    exits with status 1, leaving the world as it is. *)
Definition externals : Externals :=
  {| SoCCore_init := soc_core;
     terasic_deca_io :=
       [ ("clk50", 0, [Pins ["X1"]; IOStandard "2.5 V"]);
         ("user_led", 0, [Pins ["X2"]; IOStandard "1.2 V"]) ];
     terasic_deca_commands :=
       [ "set_global_assignment -name INTERNAL_FLASH_UPDATE_MODE SINGLE_IMAGE" ];
     yaml_load := fun text =>
       if String.eqb text manifest_text then inr manifest_doc
       else if String.eqb text "defines: []" then inr (YMap [("defines", YSeq [])])
       else if String.eqb text "# nothing" then inr YNull
       else inl (YAMLError "could not parse");
     Builder := BuilderArgs;
     Builder_init := fun _ args => ret args;
     Builder_build := fun b name =>
       write_file (gateware_dir b ++ "/" ++ name ++ ".sof")%string "bitstream";
     str := fun v =>
       match v with
       | YInt z => NilZero.string_of_int (Z.to_int z)
       | YStr s => s
       | YBool true => "True"
       | YBool false => "False"
       | YNull => "None"
       | _ => EmptyString
       end;
     add_designfiles := fun _ _ _ => ret tt;
     generate_build_id := fun _ => ret tt;
     add_mainfile := fun _ _ => ret tt;
     get_build_dir := fun core => ret ("build/" ++ core)%string;
     get_build_name := fun core => ret core;
     os_system := fun _ w => (1%Z, w) |}.

Definition world : World :=
  {| files := [("cores/menu/MiSTeX.yaml", manifest_text)];
     cwd := "/work";
     platform := None |}.

Definition world_without_manifest : World :=
  {| files := []; cwd := "/work"; platform := None |}.

Definition world_with_broken_manifest : World :=
  {| files := [("cores/menu/MiSTeX.yaml", "defines: [")];
     cwd := "/work";
     platform := None |}.

(** A manifest that parses, with a list where the defines should be. *)
Definition world_with_odd_defines : World :=
  {| files := [("cores/menu/MiSTeX.yaml", "defines: []")];
     cwd := "/work";
     platform := None |}.

(** A manifest that parses to nothing: a comment and no content. *)
Definition world_with_empty_manifest : World :=
  {| files := [("cores/menu/MiSTeX.yaml", "# nothing")];
     cwd := "/work";
     platform := None |}.

(** The platform object the sample board starts with. *)
Definition terasic_deca : PlatformObj :=
  {| io := terasic_deca_io externals; commands := terasic_deca_commands externals |}.

(** A world of the sample after [terasic_deca.Platform()]. *)
Definition prepared (w : World) : World := set_platform w terasic_deca.

(** The wires of the sample with bit 3 of [leds] at 1 and its pin low. *)
Definition lit : env :=
  fun s =>
    if signal_eqb s leds then 125%Z
    else if signal_eqb s (request board "user_led" 3 whole) then 0%Z
    else rho s.

(** The world after a successful synthesis of the core "menu". *)
Definition world_after_synthesis : World :=
  snd (synthesize externals "menu" world).

End Sample.

(* ================================================================= *)
(** ** The netlist as a whole *)

Module Netlist.
Import Migen Gateware.

(** The pieces of a target: a signal, whole or a range of its bits. *)
Definition atom : Type := signal * option (nat * nat).

Fixpoint atoms (v : value) : list atom :=
  match v with
  | Sig s => [(s, None)]
  | Cat l => flat_map atoms l
  | Slice s start stop => [(s, Some (start, stop))]
  | ClockSignal cd => [(DomainClk cd, None)]
  | ResetSignal cd => [(DomainRst cd, None)]
  | Not _ | And _ _ => []
  end.

Definition atom_drives (a : atom) (s : signal) (i : nat) : bool :=
  match a with
  | (s', None) => signal_eqb s' s && Nat.ltb i (nbits s')
  | (s', Some (start, stop)) =>
      signal_eqb s' s && Nat.leb start i && Nat.ltb i stop && Nat.ltb i (nbits s')
  end.

(** Two pieces share no bit: different signals, or ranges that do not
    meet. *)
Definition apart (a b : atom) : bool :=
  negb (signal_eqb (fst a) (fst b))
  || match snd a, snd b with
     | Some (lo, hi), Some (lo', hi') => Nat.leb hi lo' || Nat.leb hi' lo
     | _, _ => false
     end.

Fixpoint all_apart (l : list atom) : bool :=
  match l with
  | [] => true
  | a :: r => forallb (apart a) r && all_apart r
  end.

(** What a design writes: the left-hand sides of its assignments and the
    connections of the output and inout ports of its instances. *)
Definition written (it : item) : list value :=
  match it with
  | Port Output _ v | Port InOut _ v => [v]
  | _ => []
  end.

Definition targets (self : SoC) : list value :=
  map (fun st => match st with Assign lhs _ => lhs end) (comb self)
  ++ flat_map (fun inst => flat_map written (items inst)) (specials self).

(** What a design reads: the right-hand sides of its assignments and the
    connections of the input and inout ports of its instances. *)
Definition read (it : item) : list value :=
  match it with
  | Port Input _ v | Port InOut _ v => [v]
  | _ => []
  end.

Definition sources (self : SoC) : list value :=
  map (fun st => match st with Assign _ rhs => rhs end) (comb self)
  ++ flat_map (fun inst => flat_map read (items inst)) (specials self).

Definition reads (self : SoC) (s : signal) : bool :=
  existsb (fun v => mentions v s) (sources self).

(** The internal signals of a design: the ones its expressions mention, and
    the clock and the reset of each of its clock domains, mentioned or
    not. *)
Definition internals (self : SoC) : list signal :=
  filter internal (signals self)
  ++ flat_map (fun cd => [DomainClk cd; DomainRst cd]) (clock_domains self).

(** The internal bits of a design that nothing drives. *)
Definition undriven (self : SoC) : list (signal * nat) :=
  flat_map
    (fun s =>
       flat_map
         (fun i => match drivers self s i with
                   | [] => [(s, i)]
                   | _ :: _ => []
                   end)
         (seq 0 (nbits s)))
    (internals self).

Definition bit_eqb (a b : signal * nat) : bool :=
  signal_eqb (fst a) (fst b) && Nat.eqb (snd a) (snd b).

(** The resources whose pads a design connects. *)
Definition connected (self : SoC) : list (string * nat) :=
  flat_map
    (fun s => match s with
              | Pad r i _ _ => [(r, i)]
              | _ => []
              end)
    (signals self).

Definition resource_eqb (a b : string * nat) : bool :=
  String.eqb (fst a) (fst b) && Nat.eqb (snd a) (snd b).

Definition subset (l m : list (string * nat)) : bool :=
  forallb (fun a => existsb (resource_eqb a) m) l.

(** The signals local to [Top.__init__]. *)
Definition locals : list signal :=
  [ leds; clk50;
    avalon_clock; avalon_address; avalon_byteenable; avalon_read;
    avalon_readdata; avalon_burstcount; avalon_write; avalon_writedata;
    avalon_ready; avalon_readdatavalid; avalon_burstbegin; avalon_waitrequest;
    afi_half_clk; afi_reset_export_n; afi_reset_n ].

End Netlist.

(* ================================================================= *)
(** ** The state the wires settle in *)

Module Settle.
Import Migen Gateware.





End Settle.

(* ================================================================= *)
(** ** The three parts of [synthesize] *)

Module Steps.
Import Build.

Section Steps.

Variable X : Externals.

(** Lines 242 to 251: the manifest, the platform object and the design
    files. *)
Definition prepare (core : string) : M yaml :=
  let coredir := join "cores" core in

  mistex_yaml <- load X (join coredir "MiSTeX.yaml") ;;

  Platform_new X ;;;

  add_designfiles X coredir mistex_yaml "quartus" ;;;

  generate_build_id X coredir ;;;
  add_mainfile X coredir mistex_yaml ;;;
  ret mistex_yaml.

Definition qip_file (here : string) : string :=
  ("set_global_assignment -name QIP_FILE " ++ here ++ "/rtl/deca-ddr3/ddr3.qip")%string.

(** Lines 253 to 348: the commands for the toolchain and the extension of
    the platform. *)
Definition configure (mistex_yaml : yaml) : M unit :=
  here <- getcwd ;;
  add_platform_command (qip_file here) ;;;
  for_each quartus_settings add_platform_command ;;;

  defines <- yaml_get mistex_yaml "defines" (YMap []) ;;
  defines <- update defines baseline_defines ;;

  for_each defines
    (fun kv => add_platform_command (verilog_macro X (fst kv) (snd kv))) ;;;

  add_extension cape_extension.

(** Lines 350 to 363: the builder and its run. *)
Definition finish (core : string) : M (string * string) :=
  build_dir <- get_build_dir X core ;;
  build_name <- get_build_name X core ;;

  p <- get_platform ;;
  builder <- Builder_init X (Gateware.Top (SoCCore_init X) (platform_of p))
    {| build_backend := "litex";
       gateware_dir := build_dir;
       software_dir := join build_dir "software";
       compile_gateware := true;
       compile_software := true;
       csr_csv := "csr.csv" |} ;;

  name <- get_build_name X core ;;
  Builder_build X builder name ;;;
  ret (build_dir, build_name).

End Steps.

(** The platform after [configure] has run on it with the defines [d]. *)
Definition configured (X : Externals) (here : string) (d : dict yaml)
  (p : PlatformObj) : PlatformObj :=
  {| io := io p ++ cape_extension;
     commands :=
       commands p ++ qip_file here :: quartus_settings
       ++ map (fun kv => verilog_macro X (fst kv) (snd kv))
            (dict_update d baseline_defines) |}.

(** The platform when [configure] has failed at the defines. *)
Definition half_configured (here : string) (p : PlatformObj) : PlatformObj :=
  {| io := io p;
     commands := commands p ++ qip_file here :: quartus_settings |}.

(** The names of the resources the extension defines. *)
Definition cape_names : list string := map (fun r => fst (fst r)) cape_extension.

(** The board's own resources leave the names of the cape alone. *)
Definition board_leaves_cape_names (board_io : list resource) : Prop :=
  Forall (fun r => ~ In (fst (fst r)) cape_names) board_io.

(** The pads a design mentions, by resource, number and subsignal. *)
Definition pad_keys (self : Gateware.SoC) : list (string * nat * string) :=
  flat_map
    (fun s => match s with
              | Migen.Pad r i sub _ => [(r, i, sub)]
              | _ => []
              end)
    (Gateware.signals self).

(** The platform that has the extension and nothing else. *)
Definition cape_platform : Gateware.Platform :=
  platform_of {| io := cape_extension; commands := [] |}.

(** A pad of one of the extension's names has pins there. *)
Definition served (k : string * nat * string) : bool :=
  let '(r, i, sub) := k in
  implb (existsb (String.eqb r) cape_names)
    (0 <? Gateware.pins cape_platform r i sub)%nat.

(** A resource of one of the extension's names is defined there. *)
Definition defined_by_cape (k : string * nat) : bool :=
  implb (existsb (String.eqb (fst k)) cape_names)
    (existsb (fun r => (String.eqb (fst (fst r)) (fst k)
                        && Nat.eqb (snd (fst r)) (snd k))%bool) cape_extension).

(** The attribute whose lookup fails on a manifest the script cannot use:
    [mistex_yaml.get] when the document is no mapping, [defines.update]
    when its defines are there and are no mapping. *)
Definition unusable (doc : yaml) : option string :=
  match doc with
  | YMap m =>
      match dict_get m "defines" with
      | Some (YMap _) | None => None
      | Some _ => Some "update"
      end
  | _ => Some "get"
  end.

(** The defines of a manifest, none when it has none. *)
Definition defines_of (doc : yaml) : dict yaml :=
  match doc with
  | YMap m =>
      match dict_get m "defines" with
      | Some (YMap d) => d
      | _ => []
      end
  | _ => []
  end.

(** The directives for the defines, as line 303 writes them: one
    VERILOG_MACRO assignment of the key to the text of the value, in
    double quotes, per entry and in the order of the entries. *)
Definition directives (X : Externals) (defines : dict yaml) : list string :=
  map (fun kv =>
         ("set_global_assignment -name VERILOG_MACRO "
            ++ quote ++ fst kv ++ "=" ++ str X (snd kv) ++ quote)%string)
    defines.


End Steps.

(* ================================================================= *)
(** ** Facts about values *)

Section MigenFacts.
Import Migen.
Local Open Scope Z_scope.

Lemma signal_eqb_eq (a b : signal) : signal_eqb a b = true -> a = b.
Proof.
  destruct a, b; simpl; try discriminate; intros H;
    repeat (apply andb_prop in H; destruct H as [H ?]);
    repeat match goal with
           | E : String.eqb _ _ = true |- _ => apply String.eqb_eq in E
           | E : Nat.eqb _ _ = true |- _ => apply Nat.eqb_eq in E
           end; subst; reflexivity.
Qed.

Lemma signal_eqb_refl (a : signal) : signal_eqb a a = true.
Proof.
  destruct a; simpl; rewrite ?String.eqb_refl, ?Nat.eqb_refl; reflexivity.
Qed.

Lemma trunc_spec (n : nat) (x i : Z) :
  Z.testbit (trunc n x) i = Z.testbit x i && (i <? Z.of_nat n).
Proof.
  destruct (Z.ltb_spec i 0) as [Hi|Hi].
  - rewrite !Z.testbit_neg_r by assumption. reflexivity.
  - unfold trunc. rewrite Z.land_spec.
    destruct (Z.ltb_spec i (Z.of_nat n)).
    + rewrite Z.ones_spec_low by lia. reflexivity.
    + rewrite Z.ones_spec_high by lia. reflexivity.
Qed.

Lemma testbit_shiftl (a : Z) (n : nat) (i : Z) :
  Z.testbit (Z.shiftl a (Z.of_nat n)) i
  = (Z.of_nat n <=? i) && Z.testbit a (i - Z.of_nat n).
Proof.
  destruct (Z.ltb_spec i 0) as [Hi|Hi].
  - rewrite Z.testbit_neg_r by assumption.
    destruct (Z.leb_spec (Z.of_nat n) i); [lia | reflexivity].
  - destruct (Z.leb_spec (Z.of_nat n) i).
    + rewrite Z.shiftl_spec by lia. reflexivity.
    + rewrite Z.shiftl_spec by lia. apply Z.testbit_neg_r. lia.
Qed.

Lemma trunc_mod (n : nat) (x : Z) : trunc n x = x mod 2 ^ Z.of_nat n.
Proof. unfold trunc. apply Z.land_ones. lia. Qed.

Lemma trunc_range (n : nat) (x : Z) : 0 <= trunc n x < 2 ^ Z.of_nat n.
Proof. rewrite trunc_mod. apply Z.mod_pos_bound. lia. Qed.

Lemma trunc_trunc (n : nat) (x : Z) : trunc n (trunc n x) = trunc n x.
Proof.
  apply Z.bits_inj'. intros i Hi. rewrite !trunc_spec.
  rewrite <- andb_assoc, andb_diag. reflexivity.
Qed.

Lemma trunc_1 (x : Z) : trunc 1 x = Z.b2z (Z.testbit x 0).
Proof. rewrite trunc_mod. change (2 ^ Z.of_nat 1) with 2. symmetry. apply Z.bit0_mod. Qed.

Lemma trunc_land (n : nat) (x y : Z) :
  trunc n (Z.land (trunc n x) (trunc n y)) = Z.land (trunc n x) (trunc n y).
Proof.
  apply Z.bits_inj'. intros i Hi.
  rewrite trunc_spec, !Z.land_spec, !trunc_spec.
  destruct (i <? Z.of_nat n); rewrite ?andb_true_r, ?andb_false_r; reflexivity.
Qed.

Lemma bit_cases (x : Z) : trunc 1 x = 0 \/ trunc 1 x = 1.
Proof. rewrite trunc_1. destruct (Z.testbit x 0); simpl; auto. Qed.

Lemma eval_Cat_cons (rho : env) (x : value) (l : list value) :
  eval rho (Cat (x :: l))
  = Z.lor (eval rho x) (Z.shiftl (eval rho (Cat l)) (Z.of_nat (len x))).
Proof. reflexivity. Qed.

Lemma eval_Cat_nil (rho : env) : eval rho (Cat []) = 0.
Proof. reflexivity. Qed.

Lemma eval_Sig (rho : env) (s : signal) : eval rho (Sig s) = trunc (nbits s) (rho s).
Proof. reflexivity. Qed.

End MigenFacts.

(** Equations between bit vectors, bit by bit. *)
Ltac bit_rules :=
  cbn [Migen.len Migen.nbits Gateware.leds];
  repeat first
    [ rewrite Z.lor_spec | rewrite Z.land_spec | rewrite testbit_shiftl
    | rewrite trunc_spec | rewrite Z.lnot_spec by lia
    | rewrite Z.shiftr_spec by lia | rewrite Z.testbit_0_l ];
  repeat match goal with
         | |- context [(?a <? ?b)%Z] => destruct (Z.ltb_spec a b); try lia
         | |- context [(?a <=? ?b)%Z] => destruct (Z.leb_spec a b); try lia
         end;
  repeat first
    [ rewrite andb_true_r | rewrite andb_false_r | rewrite orb_false_r
    | rewrite andb_true_l | rewrite andb_false_l | rewrite orb_false_l ];
  try reflexivity; repeat f_equal; try lia.

Ltac bitwise :=
  apply Z.bits_inj'; intros ?i ?Hi;
  rewrite ?eval_Cat_cons, ?eval_Cat_nil, ?eval_Sig;
  bit_rules.

(* ================================================================= *)
(** ** The bus bridge *)

Section Bridge.
Import Migen Gateware.
Local Open Scope Z_scope.

Variable SoCCore_init :
  SoC -> Platform -> Z -> string -> list (string * pyval) -> SoC.
Variable platform : Platform.

(** The statements of lines 129 to 134 and the two instances are in the
    finished design, whatever the base class did before them. *)
Lemma bridge_comb (st : statement) :
  In st
    [ Assign (Sig avalon_burstbegin) (And (Sig avalon_write) (Sig avalon_read));
      Assign (Sig avalon_waitrequest) (Not (Sig avalon_ready));
      Assign (ClockSignal "avalon") (Sig avalon_clock);
      Assign (ClockSignal "sys") (ClockSignal "avalon") ] ->
  In st (comb (Top SoCCore_init platform)).
Proof.
  intros H. unfold Top. cbv zeta.
  match goal with |- context [if ?b then _ else _] => destruct b end;
    cbn [comb add_comb add_special add_submodule add_wb_master take];
    apply in_or_app; right; exact H.
Qed.

Lemma bridge_holds (rho : env) (st : statement) :
  models rho (Top SoCCore_init platform) ->
  In st
    [ Assign (Sig avalon_burstbegin) (And (Sig avalon_write) (Sig avalon_read));
      Assign (Sig avalon_waitrequest) (Not (Sig avalon_ready));
      Assign (ClockSignal "avalon") (Sig avalon_clock);
      Assign (ClockSignal "sys") (ClockSignal "avalon") ] ->
  holds rho st.
Proof.
  intros [Hc _] H. rewrite Forall_forall in Hc. apply Hc, bridge_comb, H.
Qed.

Lemma specials_Top :
  In (ddr3 platform) (specials (Top SoCCore_init platform))
  /\ In (sys_top platform) (specials (Top SoCCore_init platform)).
Proof.
  unfold Top. cbv zeta.
  match goal with |- context [if ?b then _ else _] => destruct b end;
    cbn [specials add_comb add_special add_submodule add_wb_master take];
    (split; apply in_or_app;
     [ left; apply in_or_app; right; left; reflexivity
     | right; left; reflexivity ]).
Qed.

(** C1: in every design [Top] builds, the value at the controller's input
    [avl_burstbegin] is the AND of the values the top level drives on
    [ddr3_write_o] and [ddr3_read_o]; it is 1 exactly when both are 1. *)
Theorem burstbegin_is_write_and_read (rho : env) :
  models rho (Top SoCCore_init platform) ->
  exists bb wr rd,
    In (ddr3 platform) (specials (Top SoCCore_init platform))
    /\ In (sys_top platform) (specials (Top SoCCore_init platform))
    /\ port (ddr3 platform) "avl_burstbegin" = Some (Input, bb)
    /\ port (sys_top platform) "ddr3_write_o" = Some (Output, wr)
    /\ port (sys_top platform) "ddr3_read_o" = Some (Output, rd)
    /\ eval rho bb = Z.land (eval rho wr) (eval rho rd)
    /\ (eval rho bb = 1 <-> eval rho wr = 1 /\ eval rho rd = 1).
Proof.
  intros Hm.
  pose proof (bridge_holds rho _ Hm (or_introl eq_refl)) as H. simpl in H.
  exists (Sig avalon_burstbegin), (Sig avalon_write), (Sig avalon_read).
  split; [apply specials_Top|]. split; [apply specials_Top|].
  do 3 (split; [reflexivity|]).
  simpl. rewrite H, (trunc_land 1). split; [reflexivity|].
  destruct (bit_cases (rho avalon_write)) as [E|E];
    destruct (bit_cases (rho avalon_read)) as [E'|E'];
    rewrite E, E'; simpl; intuition lia.
Qed.

(** C2: in every design [Top] builds, the clock of the system domain,
    [ClockSignal("sys")], carries the value the controller drives on its
    output [afi_clk]. *)
Theorem sys_clock_is_afi_clk (rho : env) :
  models rho (Top SoCCore_init platform) ->
  exists afi,
    In (ddr3 platform) (specials (Top SoCCore_init platform))
    /\ port (ddr3 platform) "afi_clk" = Some (Output, afi)
    /\ eval rho (ClockSignal "sys") = eval rho afi.
Proof.
  intros Hm. exists (Sig avalon_clock).
  split; [apply specials_Top|]. split; [reflexivity|].
  - pose proof (bridge_holds rho _ Hm (or_intror (or_intror (or_introl eq_refl)))) as Ha.
    pose proof (bridge_holds rho _ Hm
                  (or_intror (or_intror (or_intror (or_introl eq_refl))))) as Hs.
    simpl in Ha, Hs. simpl. rewrite Hs, Ha.
    change (Pos.to_nat 1) with 1%nat.
    rewrite !trunc_trunc. reflexivity.
Qed.

(** C3: in every design [Top] builds, the value at the top level's input
    [ddr3_waitrequest_i] is the negation of the value the controller drives
    on [avl_ready]. *)
Theorem waitrequest_is_not_ready (rho : env) :
  models rho (Top SoCCore_init platform) ->
  exists wq rdy,
    In (ddr3 platform) (specials (Top SoCCore_init platform))
    /\ In (sys_top platform) (specials (Top SoCCore_init platform))
    /\ port (sys_top platform) "ddr3_waitrequest_i" = Some (Input, wq)
    /\ port (ddr3 platform) "avl_ready" = Some (Output, rdy)
    /\ ((eval rho rdy = 1 /\ eval rho wq = 0)
        \/ (eval rho rdy = 0 /\ eval rho wq = 1)).
Proof.
  intros Hm. exists (Sig avalon_waitrequest), (Sig avalon_ready).
  split; [apply specials_Top|]. split; [apply specials_Top|].
  split; [reflexivity|]. split; [reflexivity|].
  pose proof (bridge_holds rho _ Hm (or_intror (or_introl eq_refl))) as H.
  simpl in H. simpl. rewrite H.
  destruct (bit_cases (rho avalon_ready)) as [E|E]; rewrite E; [right|left];
    split; reflexivity.
Qed.

End Bridge.

(** The sample wires are a state of the design on the sample board. *)
Lemma sample_models :
  Gateware.models Sample.rho (Gateware.Top Sample.soc_core Sample.board).
Proof.
  split.
  - repeat constructor.
  - apply Forall_forall. intros s Hs Hi.
    assert (H : forallb
                  (fun s => implb (Migen.internal s)
                              (Gateware.keeps_reset Sample.rho
                                 (Gateware.Top Sample.soc_core Sample.board) s))
                  (Gateware.signals (Gateware.Top Sample.soc_core Sample.board))
                = true) by (vm_compute; reflexivity).
    rewrite forallb_forall in H. specialize (H s Hs). rewrite Hi in H. exact H.
Qed.

Lemma burstbegin_is_write_and_read_witness :
  Gateware.models Sample.rho (Gateware.Top Sample.soc_core Sample.board)
  /\ exists bb wr rd,
    In (Gateware.ddr3 Sample.board)
      (Gateware.specials (Gateware.Top Sample.soc_core Sample.board))
    /\ In (Gateware.sys_top Sample.board)
         (Gateware.specials (Gateware.Top Sample.soc_core Sample.board))
    /\ Migen.port (Gateware.ddr3 Sample.board) "avl_burstbegin" = Some (Migen.Input, bb)
    /\ Migen.port (Gateware.sys_top Sample.board) "ddr3_write_o" = Some (Migen.Output, wr)
    /\ Migen.port (Gateware.sys_top Sample.board) "ddr3_read_o" = Some (Migen.Output, rd)
    /\ Migen.eval Sample.rho bb
       = Z.land (Migen.eval Sample.rho wr) (Migen.eval Sample.rho rd)
    /\ (Migen.eval Sample.rho bb = 1%Z
        <-> Migen.eval Sample.rho wr = 1%Z /\ Migen.eval Sample.rho rd = 1%Z).
Proof.
  split; [exact sample_models|].
  exact (burstbegin_is_write_and_read Sample.soc_core Sample.board Sample.rho sample_models).
Defined.

Lemma sys_clock_is_afi_clk_witness :
  Gateware.models Sample.rho (Gateware.Top Sample.soc_core Sample.board)
  /\ exists afi,
    In (Gateware.ddr3 Sample.board)
      (Gateware.specials (Gateware.Top Sample.soc_core Sample.board))
    /\ Migen.port (Gateware.ddr3 Sample.board) "afi_clk" = Some (Migen.Output, afi)
    /\ Migen.eval Sample.rho (Migen.ClockSignal "sys") = Migen.eval Sample.rho afi.
Proof.
  split; [exact sample_models|].
  exact (sys_clock_is_afi_clk Sample.soc_core Sample.board Sample.rho sample_models).
Defined.

Lemma waitrequest_is_not_ready_witness :
  Gateware.models Sample.rho (Gateware.Top Sample.soc_core Sample.board)
  /\ exists wq rdy,
    In (Gateware.ddr3 Sample.board)
      (Gateware.specials (Gateware.Top Sample.soc_core Sample.board))
    /\ In (Gateware.sys_top Sample.board)
         (Gateware.specials (Gateware.Top Sample.soc_core Sample.board))
    /\ Migen.port (Gateware.sys_top Sample.board) "ddr3_waitrequest_i" = Some (Migen.Input, wq)
    /\ Migen.port (Gateware.ddr3 Sample.board) "avl_ready" = Some (Migen.Output, rdy)
    /\ ((Migen.eval Sample.rho rdy = 1%Z /\ Migen.eval Sample.rho wq = 0%Z)
        \/ (Migen.eval Sample.rho rdy = 0%Z /\ Migen.eval Sample.rho wq = 1%Z)).
Proof.
  split; [exact sample_models|].
  exact (waitrequest_is_not_ready Sample.soc_core Sample.board Sample.rho sample_models).
Defined.

(* ================================================================= *)
(** ** The ports of the two instances *)

Section Ports.
Import Migen Gateware.
Local Open Scope Z_scope.

Variable SoCCore_init :
  SoC -> Platform -> Z -> string -> list (string * pyval) -> SoC.
Variable platform : Platform.

(** C4: each of the eight bus signals (address, byteenable, read, readdata,
    burstcount, write, writedata, readdatavalid) is connected to exactly
    one port of the controller and exactly one port of the top level, the
    two named in [bus_pairs]; one of them drives it and the other reads it;
    its width is 26 for the address, 64 for the data, 8 for the byte enables
    and the burst count, and 1 for the strobes; and the top level is given
    the same widths as its parameters AW and DW. *)
Theorem one_binding_per_bus_signal :
  In (ddr3 platform) (specials (Top SoCCore_init platform))
  /\ In (sys_top platform) (specials (Top SoCCore_init platform))
  /\ Forall (paired platform) bus_pairs
  /\ param (sys_top platform) "AW" = Some 26
  /\ param (sys_top platform) "DW" = Some 64.
Proof.
  split; [apply specials_Top|]. split; [apply specials_Top|].
  split; [|split; reflexivity].
  repeat constructor.
  all: cbv [paired].
  all: try (exists Input, Output; repeat split; vm_compute; reflexivity).
  all: try (exists Output, Input; repeat split; vm_compute; reflexivity).
Qed.

(** C8: the port HDMI_TX_D of the top level is connected to
    [Cat(hdmi.r, hdmi.g, hdmi.b)], whose width is the sum of the three
    widths; its low bits are [r], the next ones [g] and the top ones [b],
    each channel whole. *)
Theorem hdmi_tx_d_is_cat_r_g_b :
  let r := request platform "hdmi" 0 "r" in
  let g := request platform "hdmi" 0 "g" in
  let b := request platform "hdmi" 0 "b" in
  let d := Cat [Sig r; Sig g; Sig b] in
  In (sys_top platform) (specials (Top SoCCore_init platform))
  /\ port (sys_top platform) "HDMI_TX_D" = Some (Output, d)
  /\ len d = (nbits r + nbits g + nbits b)%nat
  /\ forall rho : env,
       trunc (nbits r) (eval rho d) = eval rho (Sig r)
       /\ trunc (nbits g) (Z.shiftr (eval rho d) (Z.of_nat (nbits r)))
          = eval rho (Sig g)
       /\ Z.shiftr (eval rho d) (Z.of_nat (nbits r + nbits g)) = eval rho (Sig b).
Proof.
  intros r g b d. split; [apply specials_Top|].
  split; [reflexivity|]. split; [simpl; lia|].
  intros rho. subst d. repeat split; bitwise.
Qed.

End Ports.

(* ================================================================= *)
(** ** The user LEDs *)

Section Leds.
Import Migen Gateware.

Lemma drives_drives_local (s : signal) (i : nat) :
  is_local s = true ->
  forall v : value, drives v s i = true -> drives_local v = true.
Proof.
  intros Hs. unfold drives_local.
  fix IH 1.
  intros [s'|a|a b|l|s' lo hi|cd|cd]; cbn [drives signals_of existsb];
    try discriminate.
  - intros H. apply andb_prop in H. destruct H as [H _].
    apply signal_eqb_eq in H. subst s'. rewrite Hs. reflexivity.
  - induction l as [|x l IHl]; simpl; [discriminate|].
    intros H. rewrite existsb_app. apply orb_prop in H. destruct H as [H|H].
    + rewrite (IH x H). reflexivity.
    + rewrite (IHl H). apply orb_true_r.
  - intros H. repeat (apply andb_prop in H; destruct H as [H _]).
    apply signal_eqb_eq in H. subst s'. rewrite Hs. reflexivity.
  - clear IH. destruct s; simpl in *; discriminate.
  - clear IH. destruct s; simpl in *; discriminate.
Qed.

Lemma library_drives_nothing_local (lib : Library) (s : signal) (i : nat) :
  library_ok lib = true -> is_local s = true ->
  comb_drivers (lib_comb lib) s i = []
  /\ flat_map (fun inst => port_drivers inst s i) (lib_specials lib) = [].
Proof.
  unfold library_ok. intros H Hs.
  do 3 (apply andb_prop in H; destruct H as [H _]).
  apply andb_prop in H. destruct H as [Hc Hp]. split.
  - unfold comb_drivers. rewrite forallb_forall in Hc.
    induction (lib_comb lib) as [|[lhs rhs] c IH]; simpl; [reflexivity|].
    rewrite IH by (intros x Hx; apply Hc; right; exact Hx).
    specialize (Hc (Assign lhs rhs) (or_introl eq_refl)). simpl in Hc.
    destruct (drives lhs s i) eqn:E; [|reflexivity].
    rewrite (drives_drives_local s i Hs lhs E) in Hc. discriminate.
  - rewrite forallb_forall in Hp.
    induction (lib_specials lib) as [|inst l IH]; simpl; [reflexivity|].
    rewrite IH by (intros x Hx; apply Hp; right; exact Hx).
    specialize (Hp inst (or_introl eq_refl)). rewrite app_nil_r.
    unfold port_drivers. rewrite forallb_forall in Hp.
    induction (items inst) as [|it its IHi]; simpl; [reflexivity|].
    rewrite IHi by (intros x Hx; apply Hp; right; exact Hx).
    specialize (Hp it (or_introl eq_refl)). rewrite app_nil_r.
    destruct it as [n z|[| |] n v]; simpl in *; try reflexivity.
    + destruct (drives v s i) eqn:E; [|reflexivity].
      rewrite (drives_drives_local s i Hs v E) in Hp. discriminate.
    + destruct (drives v s i) eqn:E; [|reflexivity].
      rewrite (drives_drives_local s i Hs v E) in Hp. discriminate.
Qed.

Lemma port_driven_false (self : SoC) (s : signal) :
  (forall i, (i < nbits s)%nat -> drivers self s i = []) ->
  port_driven self s = false.
Proof.
  intros H. unfold port_driven. apply not_true_iff_false. intros E.
  apply existsb_exists in E. destruct E as [i [Hi E]]. apply in_seq in Hi.
  assert (D : drivers self s i = []) by (apply H; lia).
  unfold drivers in D. apply app_eq_nil in D. destruct D as [_ D].
  rewrite D in E. discriminate.
Qed.

Lemma port_driven_true (self : SoC) (inst : Instance) (s : signal) (i : nat) :
  In inst (specials self) -> (i < nbits s)%nat ->
  port_drivers inst s i <> [] ->
  port_driven self s = true.
Proof.
  intros Hin Hi Hd. unfold port_driven. apply existsb_exists. exists i.
  split; [apply in_seq; lia|].
  destruct (flat_map (fun inst => port_drivers inst s i) (specials self)) eqn:E;
    [|reflexivity].
  exfalso. apply Hd.
  assert (K : forall x, In x (port_drivers inst s i) -> False).
  { intros x Hx.
    assert (Hf : In x (flat_map (fun inst => port_drivers inst s i) (specials self)))
      by (apply in_flat_map; exists inst; split; assumption).
    rewrite E in Hf. exact Hf. }
  destruct (port_drivers inst s i) as [|x l]; [reflexivity|].
  destruct (K x (or_introl eq_refl)).
Qed.

Lemma keeps_reset_spec (rho : env) (self : SoC) (s : signal) :
  keeps_reset rho self s = true ->
  port_driven self s = false ->
  forall i, (i < nbits s)%nat -> drivers self s i = [] ->
  Z.testbit (rho s) (Z.of_nat i) = false.
Proof.
  unfold keeps_reset. intros H Hw i Hi Hd. rewrite Hw in H. cbn [orb] in H.
  rewrite forallb_forall in H.
  assert (Hin : In i (seq 0 (nbits s))) by (apply in_seq; lia).
  apply H in Hin. rewrite Hd in Hin. apply negb_true_iff. exact Hin.
Qed.

Variable SoCCore_init :
  SoC -> Platform -> Z -> string -> list (string * pyval) -> SoC.
Variable platform : Platform.
Hypothesis Hext : only_extends SoCCore_init.

Lemma Top_extends :
  exists lib,
    library_ok lib = true
    /\ debug (Top SoCCore_init platform) = false
    /\ comb (Top SoCCore_init platform)
       = firstn 2 (comb (Top bare platform)) ++ lib_comb lib
         ++ skipn 2 (comb (Top bare platform))
    /\ specials (Top SoCCore_init platform)
       = lib_specials lib ++ [ddr3 platform; sys_top platform]
    /\ clock_domains (Top SoCCore_init platform) = ["sys"; "avalon"]%string
    /\ submodules (Top SoCCore_init platform) = lib_submodules lib
    /\ wb_masters (Top SoCCore_init platform) = lib_wb_masters lib
    /\ requested (Top SoCCore_init platform)
       = firstn 18 (requested (Top bare platform)) ++ lib_requested lib
         ++ skipn 18 (requested (Top bare platform)).
Proof.
  unfold Top. cbv zeta.
  match goal with
  | |- context [SoCCore_init ?self ?p ?f ?id ?k] =>
      destruct (Hext self p f id k) as [lib [E Hok]]; rewrite !E
  end.
  exists lib. split; [exact Hok|].
  cbn [debug comb specials clock_domains submodules wb_masters requested
       extend add_comb add_special add_clock_domain set_debug take new_SoC
       bare app map seq firstn skipn].
  repeat split; rewrite <- ?app_assoc; reflexivity.
Qed.

Lemma drivers_Top (s : signal) (i : nat) :
  is_local s = true ->
  drivers (Top SoCCore_init platform) s i
  = comb_drivers (comb (Top bare platform)) s i
    ++ port_drivers (ddr3 platform) s i ++ port_drivers (sys_top platform) s i.
Proof.
  intros Hs.
  destruct Top_extends as (lib & Hok & _ & Ec & Es & _).
  destruct (library_drives_nothing_local lib s i Hok Hs) as [Hc Hp].
  unfold drivers. rewrite Ec, Es.
  unfold comb_drivers in *. rewrite !flat_map_app, Hc, Hp.
  cbn [app flat_map]. rewrite <- flat_map_app, firstn_skipn, app_nil_r.
  reflexivity.
Qed.

Local Open Scope Z_scope.

Lemma user_led_comb :
  In (Assign (Cat (user_leds platform)) (Not (Sig leds)))
    (comb (Top SoCCore_init platform)).
Proof.
  destruct Top_extends as (lib & _ & _ & Ec & _). rewrite Ec.
  apply in_or_app. left. left. reflexivity.
Qed.

Lemma leds_in_signals : In leds (signals (Top SoCCore_init platform)).
Proof.
  unfold signals. apply in_flat_map. exists (Not (Sig leds)). split.
  - unfold values_of. apply in_or_app. left.
    apply in_flat_map. exists (Assign (Cat (user_leds platform)) (Not (Sig leds))).
    split; [exact user_led_comb | right; left; reflexivity].
  - left. reflexivity.
Qed.

Lemma user_led_holds (rho : env) :
  models rho (Top SoCCore_init platform) ->
  holds rho (Assign (Cat (user_leds platform)) (Not (Sig leds))).
Proof.
  intros [Hc _]. rewrite Forall_forall in Hc. apply Hc, user_led_comb.
Qed.

Lemma user_led_pin (rho : env) (l : nat) :
  (forall l, (l < 8)%nat -> pins platform "user_led" l whole = 1%nat) ->
  models rho (Top SoCCore_init platform) ->
  (l < 8)%nat ->
  eval rho (Sig (request platform "user_led" l whole))
  = Z.b2z (negb (Z.testbit (eval rho (Sig leds)) (Z.of_nat l))).
Proof.
  intros Hw Hm Hl.
  pose proof (user_led_holds rho Hm) as E.
  cbn [holds user_leds map seq eval wide len fold_right request nbits] in E.
  rewrite !Hw in E by lia.
  cbn [eval request nbits]. rewrite (Hw l Hl), trunc_1. f_equal.
  apply (f_equal (fun z => Z.testbit z (Z.of_nat l))) in E.
  match type of E with
  | ?a = ?b =>
      assert (L : a = Z.testbit (rho (request platform "user_led" l whole)) 0)
        by (clear E; do 8 (destruct l as [|l]; [bit_rules|]); lia);
      assert (R : b = negb (Z.testbit (trunc (nbits leds) (rho leds)) (Z.of_nat l)))
        by (clear E L; do 8 (destruct l as [|l]; [bit_rules|]); lia)
  end.
  rewrite <- L, E, R. reflexivity.
Qed.

Lemma drivers_leds (i : nat) :
  drivers (Top SoCCore_init platform) leds i
  = nth i
      [ [ByPort "sys_top" "LED_POWER"];
        [ByPort "sys_top" "LED_HDD"];
        [ByPort "sys_top" "LED_USER"];
        [];
        [ByPort "ddr3" "pll_locked"];
        [ByPort "ddr3" "local_init_done"];
        [ByPort "ddr3" "local_cal_success"];
        [ByPort "ddr3" "local_cal_fail"] ] [].
Proof.
  rewrite (drivers_Top leds i eq_refl).
  do 8 (destruct i as [|i]; [vm_compute; reflexivity|]).
  vm_compute. destruct i; reflexivity.
Qed.

Lemma leds_is_a_wire : port_driven (Top SoCCore_init platform) leds = true.
Proof.
  apply (port_driven_true _ (sys_top platform) leds 0).
  - apply specials_Top.
  - cbn. lia.
  - vm_compute. discriminate.
Qed.

(** C9, as amended: when the base class only extends [self] and every user
    LED is a single pin, pin [l] of the eight carries the complement of bit [l] of
    [leds]; bits 0, 1 and 2 of [leds] are driven by the top level's
    LED_POWER, LED_HDD and LED_USER, bits 4 to 7 by the controller's
    pll_locked, local_init_done, local_cal_success and local_cal_fail, bit 3
    by nothing.  [leds] is a wire that the outputs of the instances drive
    bit by bit, so the design gives bit 3 no value: pin 3 is the complement
    of an open wire, and nothing holds it at a constant level. *)
Theorem user_leds_active_low (rho : env) :
  (forall l, (l < 8)%nat -> pins platform "user_led" l whole = 1%nat) ->
  models rho (Top SoCCore_init platform) ->
  (forall l, (l < 8)%nat ->
     eval rho (Sig (request platform "user_led" l whole))
     = Z.b2z (negb (Z.testbit (eval rho (Sig leds)) (Z.of_nat l))))
  /\ drivers (Top SoCCore_init platform) leds 0 = [ByPort "sys_top" "LED_POWER"]
  /\ drivers (Top SoCCore_init platform) leds 1 = [ByPort "sys_top" "LED_HDD"]
  /\ drivers (Top SoCCore_init platform) leds 2 = [ByPort "sys_top" "LED_USER"]
  /\ drivers (Top SoCCore_init platform) leds 3 = []
  /\ drivers (Top SoCCore_init platform) leds 4 = [ByPort "ddr3" "pll_locked"]
  /\ drivers (Top SoCCore_init platform) leds 5 = [ByPort "ddr3" "local_init_done"]
  /\ drivers (Top SoCCore_init platform) leds 6 = [ByPort "ddr3" "local_cal_success"]
  /\ drivers (Top SoCCore_init platform) leds 7 = [ByPort "ddr3" "local_cal_fail"]
  /\ port_driven (Top SoCCore_init platform) leds = true.
Proof.
  intros Hw Hm.
  split; [intros l Hl; apply user_led_pin; assumption|].
  split; [exact (drivers_leds 0)|].
  split; [exact (drivers_leds 1)|].
  split; [exact (drivers_leds 2)|].
  split; [exact (drivers_leds 3)|].
  split; [exact (drivers_leds 4)|].
  split; [exact (drivers_leds 5)|].
  split; [exact (drivers_leds 6)|].
  split; [exact (drivers_leds 7)|].
  exact leds_is_a_wire.
Qed.

(** C10: when the base class only extends [self], [Top] leaves its debug
    flag false as line 49 set it, and the design has no SPIBone, no
    LiteScope analyzer, no SPIBone bus master and no request for the
    "spibone" pads. *)
Theorem debug_branch_is_dead :
  debug (Top SoCCore_init platform) = false
  /\ Forall (fun nm => is_debug_module (snd nm) = false)
       (submodules (Top SoCCore_init platform))
  /\ ~ In "spibone.bus"%string (wb_masters (Top SoCCore_init platform))
  /\ ~ In "spibone"%string (map fst (requested (Top SoCCore_init platform))).
Proof.
  destruct Top_extends as (lib & Hok & Hd & _ & _ & _ & Es & Ew & Er).
  unfold library_ok in Hok.
  apply andb_prop in Hok. destruct Hok as [Hok Hr].
  apply andb_prop in Hok. destruct Hok as [Hok Hw].
  apply andb_prop in Hok. destruct Hok as [_ Hs].
  rewrite forallb_forall in Hr, Hw, Hs.
  split; [exact Hd|]. split; [|split].
  - rewrite Es. apply Forall_forall. intros nm Hnm.
    apply negb_true_iff, Hs, Hnm.
  - rewrite Ew. intros Hin. apply Hw in Hin.
    rewrite String.eqb_refl in Hin. discriminate.
  - rewrite Er, !map_app, !in_app_iff. intros [H|[H|H]].
    + vm_compute in H. intuition discriminate.
    + apply in_map_iff in H. destruct H as [r [E Hin]]. apply Hr in Hin.
      rewrite E, String.eqb_refl in Hin. discriminate.
    + vm_compute in H. intuition discriminate.
Qed.

End Leds.

Lemma sample_only_extends : Gateware.only_extends Sample.soc_core.
Proof.
  intros self platform freq ident kwargs. exists Sample.soc_library.
  split; reflexivity.
Qed.

Lemma user_leds_active_low_witness :
  Gateware.only_extends Sample.soc_core
  /\ (forall l, l < 8 -> Gateware.pins Sample.board "user_led" l Gateware.whole = 1)
  /\ Gateware.models Sample.rho (Gateware.Top Sample.soc_core Sample.board)
  /\ Migen.eval Sample.rho
       (Migen.Sig (Gateware.request Sample.board "user_led" 3 Gateware.whole))
     = Z.b2z (negb (Z.testbit (Migen.eval Sample.rho (Migen.Sig Gateware.leds))
                      (Z.of_nat 3)))
  /\ Gateware.drivers (Gateware.Top Sample.soc_core Sample.board) Gateware.leds 3 = []
  /\ Gateware.port_driven (Gateware.Top Sample.soc_core Sample.board) Gateware.leds
     = true.
Proof.
  split; [exact sample_only_extends|]. split; [intros l _; reflexivity|].
  split; [exact sample_models|].
  pose proof (user_leds_active_low Sample.soc_core Sample.board sample_only_extends
                Sample.rho (fun l _ => eq_refl) sample_models) as H.
  split; [apply (proj1 H 3); lia|]. split; [apply H | apply H].
Defined.

(** The sample wires with bit 3 of [leds] at 1 are a state of the design
    too. *)
Lemma lit_models :
  Gateware.models Sample.lit (Gateware.Top Sample.soc_core Sample.board).
Proof.
  split.
  - repeat constructor.
  - apply Forall_forall. intros s Hs Hi.
    assert (H : forallb
                  (fun s => implb (Migen.internal s)
                              (Gateware.keeps_reset Sample.lit
                                 (Gateware.Top Sample.soc_core Sample.board) s))
                  (Gateware.signals (Gateware.Top Sample.soc_core Sample.board))
                = true) by (vm_compute; reflexivity).
    rewrite forallb_forall in H. specialize (H s Hs). rewrite Hi in H. exact H.
Qed.

(** C9 as stated fails: bit 3 of [leds] has no driver and no value of its
    own, and the design has a state with pin 3 at 1 and a state with pin 3
    at 0, on a board whose user LEDs are single pins and with a base class
    that only extends [self].  The pin is at no constant level, asserted or
    not. *)
Lemma user_led_3_is_not_constant :
  Gateware.only_extends Sample.soc_core
  /\ (forall l, l < 8 -> Gateware.pins Sample.board "user_led" l Gateware.whole = 1)
  /\ Gateware.drivers (Gateware.Top Sample.soc_core Sample.board) Gateware.leds 3 = []
  /\ Gateware.models Sample.rho (Gateware.Top Sample.soc_core Sample.board)
  /\ Migen.eval Sample.rho
       (Migen.Sig (Gateware.request Sample.board "user_led" 3 Gateware.whole))
     = 1%Z
  /\ Gateware.models Sample.lit (Gateware.Top Sample.soc_core Sample.board)
  /\ Migen.eval Sample.lit
       (Migen.Sig (Gateware.request Sample.board "user_led" 3 Gateware.whole))
     = 0%Z.
Proof.
  split; [exact sample_only_extends|]. split; [intros l _; reflexivity|].
  split; [vm_compute; reflexivity|].
  split; [exact sample_models|]. split; [reflexivity|].
  split; [exact lit_models | reflexivity].
Qed.

Lemma debug_branch_is_dead_witness :
  Gateware.only_extends Sample.soc_core
  /\ Gateware.debug (Gateware.Top Sample.soc_core Sample.board) = false
  /\ Gateware.submodules (Gateware.Top Sample.soc_core Sample.board)
     = [("ctrl", Gateware.Core "SoCController"); ("timer0", Gateware.Core "Timer")].
Proof.
  split; [exact sample_only_extends|].
  split; [|reflexivity].
  exact (proj1 (debug_branch_is_dead Sample.soc_core Sample.board sample_only_extends)).
Defined.

(* ================================================================= *)
(** ** Merging the defines *)

Section Dicts.
Import Build.
Context {V : Type}.
Implicit Types (d other : dict V) (k : string) (v : V).

Lemma keys_dict_set d k v :
  keys (dict_set d k v) = if in_dec string_dec k (keys d) then keys d else keys d ++ [k].
Proof.
  induction d as [|[k' v'] d IH].
  - reflexivity.
  - cbn [dict_set]. destruct (String.eqb_spec k' k) as [->|Hne].
    + destruct (in_dec string_dec k (keys ((k, v') :: d))) as [_|n]; [reflexivity|].
      exfalso. apply n. left. reflexivity.
    + change (keys ((k', v') :: dict_set d k v)) with (k' :: keys (dict_set d k v)).
      rewrite IH. change (keys ((k', v') :: d)) with (k' :: keys d).
      destruct (in_dec string_dec k (keys d)) as [i|n];
        destruct (in_dec string_dec k (k' :: keys d)) as [i'|n']; try reflexivity.
      * exfalso. apply n'. right. exact i.
      * destruct i' as [E|i']; [congruence | contradiction].
Qed.

Lemma dict_get_dict_set d k v k' :
  dict_get (dict_set d k v) k' = if String.eqb k k' then Some v else dict_get d k'.
Proof.
  induction d as [|[k0 v0] d IH]; simpl.
  - destruct (String.eqb k k'); reflexivity.
  - destruct (String.eqb_spec k0 k) as [->|Hne]; simpl.
    + destruct (String.eqb k k'); reflexivity.
    + rewrite IH. destruct (String.eqb_spec k0 k') as [->|Hne'].
      * destruct (String.eqb_spec k k'); [congruence | reflexivity].
      * reflexivity.
Qed.

Lemma dict_get_None d k : ~ In k (keys d) -> dict_get d k = None.
Proof.
  induction d as [|[k0 v0] d IH]; simpl; [reflexivity|]. intros H.
  destruct (String.eqb_spec k0 k) as [->|Hne]; [exfalso; auto|].
  apply IH. auto.
Qed.


Lemma NoDup_dict_set d k v : NoDup (keys d) -> NoDup (keys (dict_set d k v)).
Proof.
  intros H. rewrite keys_dict_set. destruct (in_dec string_dec k (keys d)) as [i|n].
  - exact H.
  - apply NoDup_app; [exact H | repeat constructor; intros [] | ].
    intros x Hx [<-|[]]. contradiction.
Qed.



Lemma dict_update_cons d k v other :
  dict_update d ((k, v) :: other) = dict_update (dict_set d k v) other.
Proof. reflexivity. Qed.


Lemma NoDup_dict_update other : forall d,
  NoDup (keys d) -> NoDup (keys (dict_update d other)).
Proof.
  induction other as [|[k0 v0] other IH]; intros d H; [exact H|].
  rewrite dict_update_cons. apply IH, NoDup_dict_set, H.
Qed.


Lemma dict_get_dict_update other : NoDup (keys other) -> forall d k,
  dict_get (dict_update d other) k
  = match dict_get other k with
    | Some v => Some v
    | None => dict_get d k
    end.
Proof.
  induction other as [|[k0 v0] other IH]; intros Hnd d k; [reflexivity|].
  simpl in Hnd. inversion Hnd as [|? ? Hnotin Hnd']; subst.
  rewrite dict_update_cons, IH by assumption. simpl.
  rewrite dict_get_dict_set.
  destruct (String.eqb_spec k0 k) as [->|Hne].
  - rewrite (dict_get_None other k Hnotin). reflexivity.
  - reflexivity.
Qed.

Lemma dict_get_Some d k : In k (keys d) -> exists v, dict_get d k = Some v.
Proof.
  induction d as [|[k0 v0] d IH]; simpl; [intros []|].
  intros H. destruct (String.eqb_spec k0 k) as [->|Hne]; [eauto|].
  apply IH. destruct H; [congruence | assumption].
Qed.



End Dicts.

(** Merging in the other order: the first map is the one with two keys. *)
Example merge_into_two_keys :
  Build.dict_update [("A", 1%Z); ("B", 2%Z)] [("A", 3%Z)] = [("A", 3%Z); ("B", 2%Z)].
Proof. reflexivity. Qed.

(* ================================================================= *)
(** ** Running [main] *)

Section MainFacts.
Import Build.

Lemma bind_inl {A B} (c : M A) (k : A -> M B) (w w' : World) (e : exn) :
  c w = (inl e, w') -> bind c k w = (inl e, w').
Proof. intros H. unfold bind. rewrite H. reflexivity. Qed.

Lemma bind_inr {A B} (c : M A) (k : A -> M B) (w w' : World) (a : A) :
  c w = (inr a, w') -> bind c k w = k a w'.
Proof. intros H. unfold bind. rewrite H. reflexivity. Qed.

Variable X : Externals.

Lemma load_spec (path : string) (w : World) :
  load X path w
  = match dict_get (files w) path with
    | None => (inl (FileNotFoundError path), w)
    | Some text =>
        match yaml_load X text with
        | inl e => (inl e, w)
        | inr doc => (inr doc, w)
        end
    end.
Proof.
  unfold load, bind, open.
  destruct (dict_get (files w) path) as [text|]; [|reflexivity].
  destruct (yaml_load X text); reflexivity.
Qed.

Lemma main_load_failure (core : string) (w : World) (e : exn) :
  load X (manifest core) w = (inl e, w) -> main X core w = (inl e, w).
Proof.
  intros H. unfold main. apply bind_inl.
  unfold synthesize. cbv zeta. apply bind_inl. exact H.
Qed.

(** When the manifest of the core is missing or does not parse, [main]
    raises and leaves the world as it found it; and whenever [main] changes
    the world at all, the manifest was there and parsed. *)
Lemma load_failure_is_clean (core : string) (w : World) :
  (manifest_error X w core -> exists e, main X core w = (inl e, w))
  /\ (snd (main X core w) <> w ->
      exists text doc,
        dict_get (files w) (manifest core) = Some text
        /\ yaml_load X text = inr doc).
Proof.
  pose proof (load_spec (manifest core) w) as L.
  pose proof (main_load_failure core w) as F.
  unfold manifest_error.
  destruct (dict_get (files w) (manifest core)) as [text|] eqn:E.
  - destruct (yaml_load X text) as [e|doc] eqn:E'.
    + split.
      * intros _. exists e. apply F, L.
      * intros H. exfalso. apply H. rewrite (F e L). reflexivity.
    + split.
      * intros [H|(t & e & H & H')]; [discriminate|].
        injection H as <-. congruence.
      * intros _. eauto.
  - split.
    + intros _. eexists. apply F, L.
    + intros H. exfalso. apply H. rewrite (F _ L). reflexivity.
Qed.

(** C6, as amended: once synthesis has succeeded, [main] returns normally
    whatever the exit status of the conversion, and the world it leaves is
    the one the conversion process left: [main] removes or rolls back
    nothing, and passes the status to nobody. *)
Theorem conversion_status_is_discarded
  (core : string) (w w1 : World) (build_dir build_name : string) :
  synthesize X core w = (inr (build_dir, build_name), w1) ->
  main X core w
  = (inr tt, snd (os_system X (quartus_cpf build_dir build_name) w1)).
Proof.
  intros H. unfold main, bind at 1. rewrite H.
  unfold bind, system. cbn [fst snd].
  destruct (os_system X (quartus_cpf build_dir build_name) w1). reflexivity.
Qed.

(** What [main] gives back never depends on the exit status. *)
Lemma exit_status_never_reported (core : string) (w : World) :
  main X core w = main (succeeding X) core w.
Proof.
  unfold main, bind at 1 3.
  change (synthesize (succeeding X) core w) with (synthesize X core w).
  destruct (synthesize X core w) as [[e|[bd bn]] w1]; [reflexivity|].
  unfold bind, system. cbn [fst snd os_system succeeding].
  destruct (os_system X (quartus_cpf bd bn) w1). reflexivity.
Qed.

(** The commands a loop of [add_platform_command] leaves on the platform. *)
Lemma for_each_add_platform_command {A} (f : A -> string) (l : list A) :
  forall (w : World) (p : PlatformObj),
    platform w = Some p ->
    for_each l (fun x => add_platform_command (f x)) w
    = (inr tt,
       set_platform w {| io := io p; commands := commands p ++ map f l |}).
Proof.
  induction l as [|x l IH]; intros w p Hp.
  - simpl. unfold ret. rewrite app_nil_r. destruct w as [fs c pl]. simpl in *.
    subst pl. destruct p. reflexivity.
  - cbn [for_each].
    rewrite (bind_inr _ _ w
               (set_platform w {| io := io p; commands := commands p ++ [f x] |}) tt)
      by (unfold add_platform_command, with_platform; rewrite Hp; reflexivity).
    rewrite (IH (set_platform w {| io := io p; commands := commands p ++ [f x] |})
               {| io := io p; commands := commands p ++ [f x] |} eq_refl).
    cbn [io commands map]. rewrite <- app_assoc. reflexivity.
Qed.

End MainFacts.

(** A manifest that does not parse: [main] raises the parser's error and
    the world is as before. *)
Example broken_manifest :
  Build.main Sample.externals "menu" Sample.world_with_broken_manifest
  = (inl (Build.YAMLError "could not parse"), Sample.world_with_broken_manifest).
Proof. vm_compute. reflexivity. Qed.

(** A manifest that parses but has a list for its defines: the error comes
    from [update], after the platform exists and holds, after the command
    the sample board starts with, the QIP_FILE command and the fixed
    settings. *)
Example odd_defines :
  fst (Build.main Sample.externals "menu" Sample.world_with_odd_defines)
  = inl (Build.AttributeError "update")
  /\ option_map (fun p => List.length (Build.commands p))
       (Build.platform
          (snd (Build.main Sample.externals "menu" Sample.world_with_odd_defines)))
     = Some 31.
Proof. vm_compute. split; reflexivity. Qed.

Lemma conversion_status_is_discarded_witness :
  Build.synthesize Sample.externals "menu" Sample.world
  = (inr ("build/menu", "menu"), Sample.world_after_synthesis)
  /\ Build.main Sample.externals "menu" Sample.world
     = (inr tt,
        snd (Build.os_system Sample.externals (Build.quartus_cpf "build/menu" "menu")
               Sample.world_after_synthesis))
  /\ Build.dict_get (Build.files Sample.world_after_synthesis) "build/menu/menu.sof"
     = Some "bitstream".
Proof.
  assert (H : Build.synthesize Sample.externals "menu" Sample.world
              = (inr ("build/menu", "menu"), Sample.world_after_synthesis))
    by (vm_compute; reflexivity).
  split; [exact H|]. split; [|vm_compute; reflexivity].
  exact (conversion_status_is_discarded Sample.externals "menu" Sample.world
           Sample.world_after_synthesis "build/menu" "menu" H).
Defined.

(** C6 as stated fails: in the sample run synthesis succeeds, the conversion
    exits with status 1, and [main] gives back exactly what it gives back
    when the conversion succeeds. *)
Lemma conversion_failure_is_not_reported :
  Build.synthesize Sample.externals "menu" Sample.world
  = (inr ("build/menu", "menu"), Sample.world_after_synthesis)
  /\ fst (Build.os_system Sample.externals (Build.quartus_cpf "build/menu" "menu")
            Sample.world_after_synthesis) = 1%Z
  /\ ~ Build.failure_reported Sample.externals "menu" Sample.world.
Proof.
  split; [vm_compute; reflexivity|]. split; [reflexivity|].
  unfold Build.failure_reported. intros H. apply H. vm_compute. reflexivity.
Qed.

(** The defines of the sample run, as they reach the toolchain: the key the
    manifest shares with the script stays first and takes the script's
    value; the manifest's own key follows; then the script's other keys. *)
Example sample_defines_emitted :
  option_map (fun p => skipn 31 (Build.commands p))
    (Build.platform Sample.world_after_synthesis)
  = Some
      (map (fun kv => Build.verilog_macro Sample.externals (fst kv) (snd kv))
         [ ("NO_SCANDOUBLER", Build.YInt 1);
           ("DEBUG_LEVEL", Build.YInt 2);
           ("ALTERA", Build.YInt 1);
           ("OSD_HEADER", Build.YInt 1);
           ("CRG_AUDIO_CLK", Build.YInt 1);
           ("HARDWARE_HDMI_INIT", Build.YInt 1);
           ("DISABLE_VGA", Build.YInt 1);
           ("SKIP_SHADOWMASK", Build.YInt 1);
           ("SKIP_IIR_FILTER", Build.YInt 1);
           ("MISTER_DISABLE_YC", Build.YInt 1);
           ("MISTER_DISABLE_ALSA", Build.YInt 1) ]).
Proof. vm_compute. reflexivity. Qed.

(* ================================================================= *)
(** ** Drivers and readers of the whole netlist *)

Section NetlistFacts.
Import Migen Gateware Netlist.

Lemma existsb_flat_map {A B} (p : B -> bool) (f : A -> list B) (l : list A) :
  existsb p (flat_map f l) = existsb (fun x => existsb p (f x)) l.
Proof.
  induction l as [|x l IH]; [reflexivity|].
  cbn [flat_map existsb]. rewrite existsb_app, IH. reflexivity.
Qed.

Lemma drives_atoms (s : signal) (i : nat) :
  forall v : value, drives v s i = existsb (fun a => atom_drives a s i) (atoms v).
Proof.
  fix IH 1.
  intros [s'|a|a b|l|s' lo hi|cd|cd]; cbn [drives atoms existsb atom_drives];
    rewrite ?orb_false_r; try reflexivity.
  - rewrite existsb_flat_map.
    induction l as [|x l IHl]; [reflexivity|].
    cbn [existsb]. rewrite IH, IHl. reflexivity.
  - clear IH. f_equal. destruct i as [|[|i]]; reflexivity.
  - clear IH. f_equal. destruct i as [|[|i]]; reflexivity.
Qed.

Lemma length_comb_drivers (c : list statement) (s : signal) (i : nat) :
  List.length (comb_drivers c s i)
  = List.length
      (filter (fun v => drives v s i)
         (map (fun st => match st with Assign lhs _ => lhs end) c)).
Proof.
  unfold comb_drivers. induction c as [|[lhs rhs] c IH]; [reflexivity|].
  cbn [flat_map map filter]. rewrite length_app, IH.
  destruct (drives lhs s i); reflexivity.
Qed.

Lemma length_port_drivers (inst : Instance) (s : signal) (i : nat) :
  List.length (port_drivers inst s i)
  = List.length (filter (fun v => drives v s i) (flat_map written (items inst))).
Proof.
  unfold port_drivers. induction (items inst) as [|it its IH]; [reflexivity|].
  cbn [flat_map]. rewrite filter_app, !length_app, IH. f_equal.
  destruct it as [n z|[| |] n v]; cbn [written filter]; try reflexivity;
    destruct (drives v s i); reflexivity.
Qed.

Lemma length_drivers (self : SoC) (s : signal) (i : nat) :
  List.length (drivers self s i)
  = List.length (filter (fun v => drives v s i) (targets self)).
Proof.
  unfold drivers, targets. rewrite filter_app, !length_app, length_comb_drivers.
  f_equal. induction (specials self) as [|inst l IH]; [reflexivity|].
  cbn [flat_map]. rewrite filter_app, !length_app, IH, length_port_drivers.
  reflexivity.
Qed.

Lemma filter_atoms_le (s : signal) (i : nat) (vs : list value) :
  List.length (filter (fun v => drives v s i) vs)
  <= List.length (filter (fun a => atom_drives a s i) (flat_map atoms vs)).
Proof.
  induction vs as [|v vs IH]; [reflexivity|].
  cbn [filter flat_map]. rewrite filter_app, length_app.
  rewrite (drives_atoms s i v).
  destruct (existsb (fun a => atom_drives a s i) (atoms v)) eqn:E; [|lia].
  apply existsb_exists in E. destruct E as [a [Hin Ha]].
  assert (H : In a (filter (fun a => atom_drives a s i) (atoms v)))
    by (apply filter_In; split; assumption).
  destruct (filter (fun a => atom_drives a s i) (atoms v)); [destruct H|].
  cbn [List.length]. lia.
Qed.

Lemma apart_drives (a b : atom) (s : signal) (i : nat) :
  apart a b = true -> atom_drives a s i = true -> atom_drives b s i = false.
Proof.
  destruct a as [sa ra], b as [sb rb]. unfold apart. cbn [fst snd].
  intros Hap Ha.
  destruct (atom_drives (sb, rb) s i) eqn:Hb; [exfalso|reflexivity].
  assert (Ea : sa = s).
  { destruct ra as [[lo hi]|]; cbn [atom_drives] in Ha;
      repeat (apply andb_prop in Ha; destruct Ha as [Ha _]);
      apply signal_eqb_eq, Ha. }
  assert (Eb : sb = s).
  { destruct rb as [[lo hi]|]; cbn [atom_drives] in Hb;
      repeat (apply andb_prop in Hb; destruct Hb as [Hb _]);
      apply signal_eqb_eq, Hb. }
  subst sa sb. rewrite signal_eqb_refl in Hap. cbn [negb orb] in Hap.
  destruct ra as [[lo hi]|]; [|discriminate].
  destruct rb as [[lo' hi']|]; [|discriminate].
  cbn [atom_drives] in Ha, Hb.
  repeat match goal with
         | H : _ && _ = true |- _ => apply andb_prop in H; destruct H
         end.
  repeat match goal with
         | H : Nat.leb _ _ = true |- _ => apply Nat.leb_le in H
         | H : Nat.ltb _ _ = true |- _ => apply Nat.ltb_lt in H
         end.
  apply orb_prop in Hap. destruct Hap as [H'|H']; apply Nat.leb_le in H'; lia.
Qed.

Lemma all_apart_one (s : signal) (i : nat) (l : list atom) :
  all_apart l = true ->
  List.length (filter (fun a => atom_drives a s i) l) <= 1.
Proof.
  induction l as [|a l IH]; [intros _; cbn; lia|].
  cbn [all_apart filter]. intros H. apply andb_prop in H. destruct H as [Ha Hl].
  destruct (atom_drives a s i) eqn:E; [|apply IH, Hl].
  cbn [List.length].
  assert (N : filter (fun a => atom_drives a s i) l = []).
  { rewrite forallb_forall in Ha. clear IH Hl.
    induction l as [|b l IHb]; [reflexivity|].
    cbn [filter]. rewrite (apart_drives a b s i (Ha b (or_introl eq_refl)) E).
    apply IHb. intros x Hx. apply Ha. right. exact Hx. }
  rewrite N. cbn. lia.
Qed.

(** Targets that are pairwise apart give every bit at most one driver. *)
Lemma one_driver (self : SoC) :
  all_apart (flat_map atoms (targets self)) = true ->
  forall s i, List.length (drivers self s i) <= 1.
Proof.
  intros H s i. rewrite length_drivers.
  etransitivity; [apply filter_atoms_le|]. apply all_apart_one, H.
Qed.

Lemma in_undriven (self : SoC) (s : signal) (i : nat) :
  In (s, i) (undriven self)
  <-> In s (internals self) /\ i < nbits s /\ drivers self s i = [].
Proof.
  unfold undriven. rewrite in_flat_map. split.
  - intros [s' [Hs H]].
    apply in_flat_map in H. destruct H as [j [Hj H]].
    apply in_seq in Hj.
    destruct (drivers self s' j) eqn:D; [|destruct H].
    destruct H as [H|[]]. injection H as <- <-.
    repeat split; try assumption. lia.
  - intros (Hs & Hlt & D). exists s. split; [exact Hs|].
    apply in_flat_map. exists i. split.
    + apply in_seq. lia.
    + rewrite D. left. reflexivity.
Qed.

Lemma in_internals (self : SoC) (s : signal) :
  In s (signals self) -> internal s = true -> In s (internals self).
Proof.
  intros Hs Hi. unfold internals. apply in_or_app. left.
  apply filter_In. split; assumption.
Qed.

Lemma bit_eqb_eq (a b : signal * nat) : bit_eqb a b = true -> a = b.
Proof.
  destruct a as [s i], b as [s' i']. unfold bit_eqb. cbn [fst snd]. intros H.
  apply andb_prop in H. destruct H as [H1 H2].
  apply signal_eqb_eq in H1. apply Nat.eqb_eq in H2. subst. reflexivity.
Qed.

Variable SoCCore_init :
  SoC -> Platform -> Z -> string -> list (string * pyval) -> SoC.
Variable platform : Platform.

Lemma drivers_own (s : signal) (i : nat) :
  only_extends SoCCore_init -> is_local s = true ->
  drivers (Top SoCCore_init platform) s i = drivers (Top bare platform) s i.
Proof.
  intros Hext Hs. rewrite (drivers_Top SoCCore_init platform Hext s i Hs).
  unfold drivers at 1. f_equal. cbn [Top specials flat_map bare add_special
    add_comb take set_debug add_clock_domain new_SoC debug app].
  rewrite app_nil_r. reflexivity.
Qed.

(** X1: no bit of any signal has two drivers in what [Top.__init__] itself
    builds: the targets of its assignments and the connections of the
    output and inout ports of its two instances never overlap.  With a base
    class that only extends [self], the same holds in the whole design for
    the signals local to [Top.__init__]. *)
Theorem every_bit_has_at_most_one_driver :
  (forall s i, List.length (drivers (Top bare platform) s i) <= 1)
  /\ (only_extends SoCCore_init ->
      forall s i, is_local s = true ->
        List.length (drivers (Top SoCCore_init platform) s i) <= 1).
Proof.
  assert (H : forall s i, List.length (drivers (Top bare platform) s i) <= 1).
  { apply one_driver. vm_compute. reflexivity. }
  split; [exact H|].
  intros Hext s i Hs. rewrite (drivers_own s i Hext Hs). apply H.
Qed.

Lemma locals_are_local (s : signal) :
  In s locals ->
  is_local s = true /\ internal s = true
  /\ In s (signals (Top bare platform)).
Proof.
  intros Hin.
  assert (B : forallb
                (fun s => is_local s && internal s
                          && existsb (signal_eqb s) (signals (Top bare platform)))
                locals = true) by (vm_compute; reflexivity).
  rewrite forallb_forall in B. specialize (B s Hin).
  apply andb_prop in B. destruct B as [B Hs].
  apply andb_prop in B. destruct B as [Hl Hi].
  repeat split; try assumption.
  apply existsb_exists in Hs. destruct Hs as [x [Hx E]].
  apply signal_eqb_eq in E. subst x. exact Hx.
Qed.

Lemma undriven_Top_bare (s : signal) (i : nat) :
  In (s, i) (undriven (Top bare platform))
  <-> (s = leds /\ i = 3)
      \/ (s = DomainRst "sys" /\ i = 0)
      \/ (s = DomainRst "avalon" /\ i = 0).
Proof.
  split.
  - intros H.
    assert (B : forallb
                  (fun b => existsb (bit_eqb b)
                              [(leds, 3); (DomainRst "sys", 0);
                               (DomainRst "avalon", 0)])
                  (undriven (Top bare platform)) = true)
      by (vm_compute; reflexivity).
    rewrite forallb_forall in B. apply B in H.
    cbn [existsb] in H. rewrite orb_false_r in H.
    apply orb_prop in H. destruct H as [H|H];
      [|apply orb_prop in H; destruct H as [H|H]];
      apply bit_eqb_eq in H; injection H as -> ->; tauto.
  - intros H.
    assert (B : forallb
                  (fun b => existsb (bit_eqb b) (undriven (Top bare platform)))
                  [(leds, 3); (DomainRst "sys", 0); (DomainRst "avalon", 0)]
                = true)
      by (vm_compute; reflexivity).
    rewrite forallb_forall in B.
    assert (K : In (s, i)
                  [(leds, 3); (DomainRst "sys", 0); (DomainRst "avalon", 0)]).
    { destruct H as [[-> ->]|[[-> ->]|[-> ->]]]; cbn [In]; tauto. }
    apply B, existsb_exists in K. destruct K as [b [Hb E]].
    apply bit_eqb_eq in E. subst b. exact Hb.
Qed.

(** X2: of all the internal bits of what [Top.__init__] builds, the clock
    and reset lines of its two clock domains included, exactly three have
    no driver: bit 3 of [leds], the reset of the "sys" domain and the reset
    of the "avalon" domain.  [leds] is a wire, whose open bit has no value;
    the two resets are registers, which stay at 0.  With a base class that
    only extends [self], bit 3 of [leds] is the only undriven bit of the
    seventeen signals made by [Signal(...)] in [Top.__init__]. *)
Theorem only_leds_3_and_the_two_resets_are_undriven :
  (forall s i,
     In (s, i) (undriven (Top bare platform))
     <-> (s = leds /\ i = 3)
         \/ (s = DomainRst "sys" /\ i = 0)
         \/ (s = DomainRst "avalon" /\ i = 0))
  /\ port_driven (Top bare platform) leds = true
  /\ port_driven (Top bare platform) (DomainRst "sys") = false
  /\ port_driven (Top bare platform) (DomainRst "avalon") = false
  /\ (only_extends SoCCore_init ->
      forall s i, In s locals -> i < nbits s ->
        (drivers (Top SoCCore_init platform) s i = [] <-> s = leds /\ i = 3)).
Proof.
  pose proof undriven_Top_bare as U.
  split; [exact U|].
  split; [vm_compute; reflexivity|].
  split; [vm_compute; reflexivity|].
  split; [vm_compute; reflexivity|].
  intros Hext s i Hin Hlt.
  destruct (locals_are_local s Hin) as (Hl & Hi & Hs).
  rewrite (drivers_own s i Hext Hl). split.
  - intros D.
    assert (H : In (s, i) (undriven (Top bare platform)))
      by (apply in_undriven; auto using in_internals).
    apply U in H. destruct H as [H|[[-> _]|[-> _]]];
      [exact H | discriminate | discriminate].
  - intros H. apply (in_undriven (Top bare platform) s i), U. left. exact H.
Qed.

(** X3: of the signals made in [Top.__init__], the ones nothing reads are
    exactly [afi_half_clk], [afi_reset_export_n] and [afi_reset_n]; the
    last two are connected crosswise, the output [afi_reset_n] to the
    signal named [afi_reset_export_n] and the other way round. *)
Theorem afi_outputs_are_never_read :
  (forall s, In s locals ->
     (reads (Top bare platform) s = false
      <-> s = afi_half_clk \/ s = afi_reset_export_n \/ s = afi_reset_n))
  /\ port (ddr3 platform) "afi_half_clk" = Some (Output, Sig afi_half_clk)
  /\ port (ddr3 platform) "afi_reset_n" = Some (Output, Sig afi_reset_export_n)
  /\ port (ddr3 platform) "afi_reset_export_n" = Some (Output, Sig afi_reset_n).
Proof.
  split; [|repeat split; reflexivity].
  intros s Hin. split.
  - intros H. unfold locals in Hin.
    repeat (destruct Hin as [<-|Hin];
            [first [ vm_compute in H; discriminate | tauto ]|]).
    destruct Hin.
  - intros [-> | [-> | ->]]; vm_compute; reflexivity.
Qed.

Lemma subset_incl (l m : list (string * nat)) :
  subset l m = true -> forall a, In a l -> In a m.
Proof.
  unfold subset. intros H a Ha. rewrite forallb_forall in H.
  apply H, existsb_exists in Ha. destruct Ha as [b [Hb E]].
  unfold resource_eqb in E. apply andb_prop in E. destruct E as [E1 E2].
  apply String.eqb_eq in E1. apply Nat.eqb_eq in E2.
  destruct a, b. cbn [fst snd] in *. subst. exact Hb.
Qed.

(** X4: [Top.__init__] requests no resource twice, every pad it connects
    belongs to a resource it has requested, and every resource it requests
    is connected somewhere but one: "hps_i2c" is requested and then not
    used. *)
Theorem requested_and_connected_resources :
  (forall r, In r (connected (Top bare platform)) ->
             In r (requested (Top bare platform)))
  /\ (forall r, In r (requested (Top bare platform)) ->
                In r (connected (Top bare platform)) \/ r = ("hps_i2c", 0))
  /\ ~ In ("hps_i2c", 0) (connected (Top bare platform))
  /\ NoDup (requested (Top bare platform)).
Proof.
  split; [|split; [|split]].
  - apply subset_incl. vm_compute. reflexivity.
  - intros r Hr.
    assert (S : subset (requested (Top bare platform))
                  (("hps_i2c", 0) :: connected (Top bare platform)) = true)
      by (vm_compute; reflexivity).
    destruct (subset_incl _ _ S r Hr) as [<-|H]; [right; reflexivity | left; exact H].
  - intros H.
    assert (S : existsb (resource_eqb ("hps_i2c", 0))
                  (connected (Top bare platform)) = false)
      by (vm_compute; reflexivity).
    apply not_true_iff_false in S. apply S, existsb_exists.
    exists ("hps_i2c", 0). split; [exact H | reflexivity].
  - cbv [Top requested take bare add_comb add_special set_debug
         add_clock_domain new_SoC debug app map seq].
    repeat (constructor; [cbv [In]; intuition discriminate|]). constructor.
Qed.

Local Open Scope Z_scope.

(** X5: the clock input of the top level's memory port, [ddr3_clk_i], the
    clock of the "avalon" domain and the clock of the "sys" domain carry the
    same value in every state of the design. *)
Theorem bus_clock_is_the_system_clock (rho : env) :
  models rho (Top SoCCore_init platform) ->
  exists clk,
    port (sys_top platform) "ddr3_clk_i" = Some (Input, clk)
    /\ eval rho (ClockSignal "avalon") = eval rho clk
    /\ eval rho (ClockSignal "sys") = eval rho clk.
Proof.
  intros Hm. exists (Sig avalon_clock). split; [reflexivity|].
  pose proof (bridge_holds SoCCore_init platform rho _ Hm
                (or_intror (or_intror (or_introl eq_refl)))) as Ha.
  pose proof (bridge_holds SoCCore_init platform rho _ Hm
                (or_intror (or_intror (or_intror (or_introl eq_refl))))) as Hs.
  cbn [holds eval wide len nbits avalon_clock] in Ha, Hs |- *.
  rewrite Hs, Ha, !trunc_trunc. split; reflexivity.
Qed.

Lemma sys_reset_in_signals :
  In (DomainRst "sys") (signals (Top SoCCore_init platform)).
Proof.
  unfold signals. apply in_flat_map. exists (Not (ResetSignal "sys")). split.
  - unfold values_of. apply in_or_app. right.
    apply in_flat_map. exists (ddr3 platform).
    split; [apply specials_Top|].
    cbn [ddr3 items flat_map app]. right. left. reflexivity.
  - left. reflexivity.
Qed.

(** X6: both reset inputs of the controller, [global_reset_n] and
    [soft_reset_n], get the negation of the reset of the "sys" domain.
    Nothing in [Top.__init__] drives that reset, so unless the base class
    drives it, the two inputs are constantly 1: the controller is never
    reset. *)
Theorem controller_resets_follow_the_system_reset (rho : env) :
  models rho (Top SoCCore_init platform) ->
  drivers (Top SoCCore_init platform) (DomainRst "sys") 0 = [] ->
  exists rst_n,
    port (ddr3 platform) "global_reset_n" = Some (Input, rst_n)
    /\ port (ddr3 platform) "soft_reset_n" = Some (Input, rst_n)
    /\ (forall rho',
          (eval rho' (ResetSignal "sys") = 0 /\ eval rho' rst_n = 1)
          \/ (eval rho' (ResetSignal "sys") = 1 /\ eval rho' rst_n = 0))
    /\ drivers (Top bare platform) (DomainRst "sys") 0 = []
    /\ eval rho rst_n = 1.
Proof.
  intros [_ Hr] D.
  exists (Not (ResetSignal "sys")).
  split; [reflexivity|]. split; [reflexivity|].
  split.
  { intros rho'. cbn [eval len].
    destruct (bit_cases (rho' (DomainRst "sys"))) as [E|E]; rewrite E;
      [left|right]; split; reflexivity. }
  split; [vm_compute; reflexivity|].
  rewrite Forall_forall in Hr.
  pose proof (Hr _ sys_reset_in_signals eq_refl) as K.
  assert (W : port_driven (Top SoCCore_init platform) (DomainRst "sys") = false).
  { apply port_driven_false. intros i Hi. cbn [nbits] in Hi.
    replace i with 0%nat by lia. exact D. }
  pose proof (keeps_reset_spec rho _ _ K W 0%nat (Nat.lt_0_succ 0) D) as B.
  cbn [eval len]. rewrite trunc_1. change (Z.of_nat 0) with 0 in B.
  rewrite Z.lnot_spec, trunc_spec, B by lia. reflexivity.
Qed.

(** X7: the controller's [pll_ref_clk] and the top level's [CLK_50] are
    connected to the same signal, which carries the low bit of the board's
    "clk50" pad, when the base class only extends [self]. *)
Theorem both_instances_get_the_board_clock (rho : env) :
  only_extends SoCCore_init ->
  models rho (Top SoCCore_init platform) ->
  exists ref,
    port (ddr3 platform) "pll_ref_clk" = Some (Input, ref)
    /\ port (sys_top platform) "CLK_50" = Some (Input, ref)
    /\ eval rho ref
       = trunc 1 (eval rho (Sig (request platform "clk50" 0 whole))).
Proof.
  intros Hext [Hc _]. exists (Sig clk50).
  split; [reflexivity|]. split; [reflexivity|].
  rewrite Forall_forall in Hc.
  destruct (Top_extends SoCCore_init platform Hext) as (lib & _ & _ & Ec & _).
  assert (Hin : In (Assign (Sig clk50) (Sig (request platform "clk50" 0 whole)))
                  (comb (Top SoCCore_init platform))).
  { rewrite Ec. apply in_or_app. left. right. left. reflexivity. }
  apply Hc in Hin. exact Hin.
Qed.

End NetlistFacts.

(* ================================================================= *)
(** ** Every stimulus has a state *)

Section SettleFacts.
Import Migen Gateware Netlist Settle.
Local Open Scope Z_scope.


Variable platform : Platform.
Variable inp : env.











End SettleFacts.

(* ================================================================= *)
(** ** The parts of [synthesize] *)

Section StepFacts.
Import Build Steps.

Variable X : Externals.

(** [synthesize] is its three parts in a row. *)
Lemma synthesize_steps (core : string) (w : World) :
  synthesize X core w
  = (doc <- prepare X core ;; configure X doc ;;; finish X core) w.
Proof.
  unfold synthesize, prepare, configure, finish, qip_file. cbv zeta.
  unfold bind, ret.
  repeat match goal with
         | |- context [match ?t with pair _ _ => _ end] =>
             destruct t as [[?|?] ?]
         end; reflexivity.
Qed.

Lemma add_platform_command_ok (cmd : string) (w : World) (p : PlatformObj) :
  platform w = Some p ->
  add_platform_command cmd w
  = (inr tt, set_platform w {| io := io p; commands := commands p ++ [cmd] |}).
Proof.
  intros Hp. unfold add_platform_command, with_platform. rewrite Hp. reflexivity.
Qed.

Lemma add_extension_ok (ext : list resource) (w : World) (p : PlatformObj) :
  platform w = Some p ->
  add_extension ext w
  = (inr tt, set_platform w {| io := io p ++ ext; commands := commands p |}).
Proof.
  intros Hp. unfold add_extension, with_platform. rewrite Hp. reflexivity.
Qed.

(** The first thirty commands: the QIP file and the fixed settings. *)
Lemma settings_ok (w : World) (p : PlatformObj) {A} (k : M A) :
  platform w = Some p ->
  (here <- getcwd ;;
   add_platform_command (qip_file here) ;;;
   for_each quartus_settings add_platform_command ;;; k) w
  = k (set_platform w (half_configured (cwd w) p)).
Proof.
  intros Hp.
  rewrite (bind_inr getcwd _ w w (cwd w) eq_refl).
  rewrite (bind_inr _ _ _ _ tt (add_platform_command_ok _ w p Hp)).
  rewrite (bind_inr _ _ _ _ tt
             (for_each_add_platform_command (fun c => c) quartus_settings
                (set_platform w
                   {| io := io p; commands := commands p ++ [qip_file (cwd w)] |})
                {| io := io p; commands := commands p ++ [qip_file (cwd w)] |}
                eq_refl)).
  cbn [io commands]. rewrite map_id, <- app_assoc. reflexivity.
Qed.

(** What [configure] does to a platform when it can use the manifest. *)
Lemma configure_ok (doc : yaml) (w : World) (p : PlatformObj) :
  platform w = Some p ->
  unusable doc = None ->
  configure X doc w
  = (inr tt, set_platform w (configured X (cwd w) (defines_of doc) p)).
Proof.
  intros Hp Hu. unfold configure.
  rewrite (settings_ok w p _ Hp).
  assert (E : yaml_get doc "defines" (YMap [])
                (set_platform w (half_configured (cwd w) p))
              = (inr (YMap (defines_of doc)),
                 set_platform w (half_configured (cwd w) p))).
  { unfold yaml_get, ret, unusable, defines_of in *.
    destruct doc as [| | | | |m]; try discriminate.
    destruct (dict_get m "defines") as [[| | | | |d]|]; try discriminate;
      reflexivity. }
  rewrite (bind_inr _ _ _ _ _ E).
  rewrite (bind_inr (update (YMap (defines_of doc)) baseline_defines) _ _ _
             (dict_update (defines_of doc) baseline_defines) eq_refl).
  rewrite (bind_inr _ _ _ _ tt
             (for_each_add_platform_command
                (fun kv => verilog_macro X (fst kv) (snd kv))
                (dict_update (defines_of doc) baseline_defines)
                (set_platform w (half_configured (cwd w) p))
                (half_configured (cwd w) p) eq_refl)).
  rewrite (add_extension_ok cape_extension
             (set_platform _ {| io := io (half_configured (cwd w) p);
                                commands := _ |}) _ eq_refl).
  unfold configured, half_configured, set_platform. cbn [io commands files cwd].
  rewrite <- app_assoc. reflexivity.
Qed.

(** How [configure] fails on a manifest it cannot use. *)
Lemma configure_fails (doc : yaml) (w : World) (p : PlatformObj) (attr : string) :
  platform w = Some p ->
  unusable doc = Some attr ->
  configure X doc w
  = (inl (AttributeError attr), set_platform w (half_configured (cwd w) p)).
Proof.
  intros Hp Hu. unfold configure. rewrite (settings_ok w p _ Hp).
  unfold unusable in Hu.
  destruct doc as [| | | | |m];
    try (injection Hu as <-; apply bind_inl; reflexivity).
  destruct (dict_get m "defines") as [v|] eqn:Hv; [|discriminate].
  assert (E : yaml_get (YMap m) "defines" (YMap [])
                (set_platform w (half_configured (cwd w) p))
              = (inr v, set_platform w (half_configured (cwd w) p))).
  { unfold yaml_get, ret. rewrite Hv. reflexivity. }
  rewrite (bind_inr _ _ _ _ _ E).
  apply bind_inl.
  destruct v; try discriminate; injection Hu as <-; reflexivity.
Qed.

Lemma in_dict_get {V} (d : dict V) (k : string) (v : V) :
  NoDup (keys d) -> (In (k, v) d <-> dict_get d k = Some v).
Proof.
  induction d as [|[k0 v0] d IH]; simpl; intros Hnd.
  - split; [intros [] | discriminate].
  - inversion Hnd as [|? ? Hnotin Hnd']; subst.
    destruct (String.eqb_spec k0 k) as [->|Hne].
    + split.
      * intros [E|Hin]; [congruence|].
        exfalso. apply Hnotin. unfold keys. apply in_map_iff.
        exists (k, v). split; [reflexivity | exact Hin].
      * intros E. left. congruence.
    + rewrite <- (IH Hnd'). split.
      * intros [E|Hin]; [congruence | exact Hin].
      * intros Hin. right. exact Hin.
Qed.

Lemma NoDup_keys_baseline_defines : NoDup (keys baseline_defines).
Proof.
  unfold keys, baseline_defines. cbn [map fst].
  repeat (constructor; [cbn [In]; intuition discriminate|]). constructor.
Qed.

Lemma baseline_defines_are_1 (k : string) :
  In k (keys baseline_defines) <-> dict_get baseline_defines k = Some (YInt 1).
Proof.
  split.
  - intros H. destruct (dict_get_Some _ _ H) as [v Hv].
    rewrite Hv. f_equal.
    apply (in_dict_get _ _ _ NoDup_keys_baseline_defines) in Hv.
    unfold baseline_defines in Hv. cbn [In] in Hv.
    repeat (destruct Hv as [Hv|Hv]; [congruence|]). destruct Hv.
  - intros H. destruct (in_dec string_dec k (keys baseline_defines)) as [i|n];
      [exact i|]. rewrite (dict_get_None _ _ n) in H. discriminate.
Qed.

Lemma merged_defines (d : dict yaml) (k : string) (v : yaml) :
  NoDup (keys d) ->
  In (k, v) (dict_update d baseline_defines)
  <-> (In k (keys baseline_defines) /\ v = YInt 1)
      \/ (~ In k (keys baseline_defines) /\ In (k, v) d).
Proof.
  intros Hnd.
  rewrite (in_dict_get _ k v (NoDup_dict_update baseline_defines d Hnd)).
  rewrite (dict_get_dict_update _ NoDup_keys_baseline_defines).
  rewrite (in_dict_get d k v Hnd).
  destruct (in_dec string_dec k (keys baseline_defines)) as [i|n].
  - rewrite (proj1 (baseline_defines_are_1 k) i). intuition congruence.
  - rewrite (dict_get_None _ _ n). tauto.
Qed.

(** What reaches the builder when the manifest is usable: the directives
    of the manifest's defines with the script's merged into them. *)
Lemma synthesize_emits
  (core : string) (w w1 : World) (doc : yaml) (p : PlatformObj) :
  prepare X core w = (inr doc, w1) ->
  platform w1 = Some p ->
  unusable doc = None ->
  synthesize X core w
  = finish X core
      (set_platform w1
         {| io := io p ++ cape_extension;
            commands :=
              commands p ++ qip_file (cwd w1) :: quartus_settings
              ++ directives X (dict_update (defines_of doc) baseline_defines) |}).
Proof.
  intros Hprep Hp Hu. rewrite synthesize_steps.
  rewrite (bind_inr _ _ _ _ _ Hprep).
  rewrite (bind_inr _ _ _ _ tt (configure_ok doc w1 p Hp Hu)).
  reflexivity.
Qed.


(** X11: the manifest cannot change a define the script sets.  In every
    run of [main] with a usable manifest, the VERILOG_MACRO directives that
    reach the builder are those of a dictionary in which each of the ten
    keys of the script has the value 1, whatever the manifest gives it, and
    every other entry is an entry of the manifest.  The keys of the
    manifest's defines are distinct, as the keys of a Python dictionary
    are. *)
Theorem script_defines_override_the_manifest
  (core : string) (w w1 : World) (doc : yaml) (p : PlatformObj) :
  prepare X core w = (inr doc, w1) ->
  platform w1 = Some p ->
  unusable doc = None ->
  NoDup (keys (defines_of doc)) ->
  exists merged,
    synthesize X core w
    = finish X core
        (set_platform w1
           {| io := io p ++ cape_extension;
              commands :=
                commands p ++ qip_file (cwd w1) :: quartus_settings
                ++ directives X merged |})
    /\ forall k v,
         In (k, v) merged
         <-> (In k (keys baseline_defines) /\ v = YInt 1)
             \/ (~ In k (keys baseline_defines) /\ In (k, v) (defines_of doc)).
Proof.
  intros Hprep Hp Hu Hd.
  exists (dict_update (defines_of doc) baseline_defines). split.
  - exact (synthesize_emits core w w1 doc p Hprep Hp Hu).
  - intros k v. exact (merged_defines (defines_of doc) k v Hd).
Qed.

Lemma bind_bind {A B C} (c : M A) (k : A -> M B) (k' : B -> M C) (w : World) :
  bind (bind c k) k' w = bind c (fun x => bind (k x) k') w.
Proof. unfold bind. destruct (c w) as [[e|a] w']; reflexivity. Qed.

Lemma bind_congr {A B} (c : M A) (k k' : A -> M B) (w : World) :
  (forall a w', k a w' = k' a w') -> bind c k w = bind c k' w.
Proof. intros H. unfold bind. destruct (c w) as [[e|a] w']; [reflexivity | apply H]. Qed.

(** After a manifest that parsed, everything that uses the document runs
    on a world in which the platform object exists. *)
Lemma platform_before_the_document (core : string) (w : World) (doc : yaml) :
  load X (manifest core) w = (inr doc, w) ->
  synthesize X core w
  = (add_designfiles X (join "cores" core) doc "quartus" ;;;
     generate_build_id X (join "cores" core) ;;;
     add_mainfile X (join "cores" core) doc ;;;
     configure X doc ;;;
     finish X core)
      (set_platform w
         {| io := terasic_deca_io X; commands := terasic_deca_commands X |}).
Proof.
  intros H. rewrite synthesize_steps. unfold prepare. cbv zeta.
  unfold manifest in H.
  rewrite bind_bind, (bind_inr _ _ _ _ _ H), bind_bind.
  rewrite (bind_inr (Platform_new X) _ w
             (set_platform w
                {| io := terasic_deca_io X; commands := terasic_deca_commands X |})
             tt eq_refl).
  rewrite bind_bind. apply bind_congr. intros _ w2.
  rewrite bind_bind. apply bind_congr. intros _ w3.
  rewrite bind_bind. apply bind_congr. intros _ w4.
  reflexivity.
Qed.

(** C7, as amended: when the manifest of the core is missing or the parser
    rejects it, [main] raises and leaves the world as it found it: no
    platform object, no extension, no command; and whenever [main] changes
    the world at all, the manifest was there and parsed.  But the content
    of a manifest that parses is not looked at before the platform object
    is made: the helpers, the commands and the builder, which use the
    document, all run on a world in which the platform exists, so that an
    error in the manifest's fields is raised after that. *)
Theorem manifest_error_leaves_everything_untouched (core : string) (w : World) :
  (manifest_error X w core -> exists e, main X core w = (inl e, w))
  /\ (snd (main X core w) <> w ->
      exists text doc,
        dict_get (files w) (manifest core) = Some text
        /\ yaml_load X text = inr doc)
  /\ (forall doc,
        load X (manifest core) w = (inr doc, w) ->
        synthesize X core w
        = (add_designfiles X (join "cores" core) doc "quartus" ;;;
           generate_build_id X (join "cores" core) ;;;
           add_mainfile X (join "cores" core) doc ;;;
           configure X doc ;;;
           finish X core)
            (set_platform w
               {| io := terasic_deca_io X;
                  commands := terasic_deca_commands X |})).
Proof.
  destruct (load_failure_is_clean X core w) as [H1 H2].
  split; [exact H1|]. split; [exact H2|].
  intros doc. apply platform_before_the_document.
Qed.

(** X9: when the manifest is usable, [main] reaches the builder with a
    platform that has, after what the helpers left there, the QIP file of
    the controller, the 29 fixed settings, one VERILOG_MACRO per define of
    the merged dictionary, in this order, and the resources of the cape
    after the board's own. *)
Theorem platform_is_configured_before_the_build
  (core : string) (w w1 : World) (doc : yaml) (p : PlatformObj) :
  prepare X core w = (inr doc, w1) ->
  platform w1 = Some p ->
  unusable doc = None ->
  synthesize X core w
  = finish X core (set_platform w1 (configured X (cwd w1) (defines_of doc) p)).
Proof.
  intros Hprep Hp Hu. rewrite synthesize_steps.
  rewrite (bind_inr _ _ _ _ _ Hprep).
  rewrite (bind_inr _ _ _ _ tt (configure_ok doc w1 p Hp Hu)).
  reflexivity.
Qed.

(** X10: a manifest that parses but is no mapping, or whose defines are
    there and are no mapping (a list, a string, a number, nothing), makes
    [main] raise [AttributeError] on [get] or on [update].  This happens
    after the QIP file and the fixed settings were added: the platform
    holds those, no macro and no extension, and neither the builder nor the
    conversion has run. *)
Theorem unusable_manifest_stops_main_after_the_settings
  (core : string) (w w1 : World) (doc : yaml) (p : PlatformObj) (attr : string) :
  prepare X core w = (inr doc, w1) ->
  platform w1 = Some p ->
  unusable doc = Some attr ->
  main X core w
  = (inl (AttributeError attr), set_platform w1 (half_configured (cwd w1) p)).
Proof.
  intros Hprep Hp Hu. unfold main. apply bind_inl. rewrite synthesize_steps.
  rewrite (bind_inr _ _ _ _ _ Hprep). apply bind_inl.
  exact (configure_fails doc w1 p attr Hp Hu).
Qed.

Lemma ends_with_sep_app (a b : string) :
  b <> EmptyString -> ends_with_sep (a ++ b) = ends_with_sep b.
Proof.
  intros Hb. induction a as [|c a IH]; [reflexivity|].
  cbn [append ends_with_sep]. rewrite IH.
  destruct (a ++ b)%string eqn:E; [|reflexivity].
  destruct a; [cbn in E; congruence | discriminate].
Qed.

Lemma starts_with_sep_nonempty (s : string) :
  starts_with_sep s = true -> s <> EmptyString.
Proof. destruct s; [discriminate | discriminate]. Qed.

(** X12: where [main] looks for the manifest: under "cores/", in the
    directory of the core, as "MiSTeX.yaml".  A core name that starts with
    a slash is taken as it is, without "cores/" before it, and after a name
    that is empty or ends with a slash no second slash is put. *)
Theorem manifest_path (core : string) :
  manifest core
  = ((if starts_with_sep core then core else "cores/" ++ core)
       ++ (if (String.eqb core EmptyString || ends_with_sep core)%bool
           then "MiSTeX.yaml" else "/MiSTeX.yaml"))%string.
Proof.
  unfold manifest, join. destruct (starts_with_sep core) eqn:Hs.
  - cbn [starts_with_sep Ascii.eqb Bool.eqb].
    destruct (String.eqb core EmptyString || ends_with_sep core)%bool;
      reflexivity.
  - cbn [starts_with_sep String.eqb ends_with_sep Ascii.eqb Bool.eqb orb].
    destruct (String.eqb_spec core EmptyString) as [->|Hne].
    + reflexivity.
    + change ("cores" ++ "/" ++ core)%string with ("cores/" ++ core)%string.
      rewrite (ends_with_sep_app "cores/" core Hne).
      cbn [orb].
      destruct (ends_with_sep core); reflexivity.
Qed.

End StepFacts.

(* ================================================================= *)
(** ** The extension of the platform against the requests of [Top] *)

Section CapeFacts.
Import Migen Gateware Build Steps.

Lemma pad_keys_Top (platform : Platform) :
  pad_keys (Top bare platform) = pad_keys (Top bare cape_platform).
Proof. vm_compute. reflexivity. Qed.

Lemma find_resource_app (board_io ext : list resource) (name : string)
  (number : nat) :
  Forall (fun r => fst (fst r) <> name) board_io ->
  find_resource (board_io ++ ext) name number = find_resource ext name number.
Proof.
  induction 1 as [|[[n i] cs] l Hne _ IH]; [reflexivity|].
  cbn [app find_resource]. cbn [fst] in Hne.
  destruct (String.eqb_spec n name) as [E|_]; [contradiction|].
  cbn [andb]. exact IH.
Qed.

Lemma pins_cape_platform (q : PlatformObj) (board_io : list resource)
  (r : string) (i : nat) (sub : string) :
  io q = board_io ++ cape_extension ->
  board_leaves_cape_names board_io ->
  In r cape_names ->
  pins (platform_of q) r i sub = pins cape_platform r i sub.
Proof.
  intros Hq Hb Hr. unfold cape_platform, platform_of. cbn [pins io].
  rewrite Hq, find_resource_app; [reflexivity|].
  unfold board_leaves_cape_names in Hb.
  eapply Forall_impl; [|exact Hb]. cbn beta. intros a Ha E. apply Ha.
  rewrite E. exact Hr.
Qed.

Lemma served_pad_keys :
  forallb served (pad_keys (Top bare cape_platform)) = true.
Proof. vm_compute. reflexivity. Qed.

Lemma requested_Top_bare (platform : Platform) :
  requested (Top bare platform) = requested (Top bare cape_platform).
Proof. vm_compute. reflexivity. Qed.

Lemma defined_requested :
  forallb defined_by_cape (requested (Top bare cape_platform)) = true.
Proof. vm_compute. reflexivity. Qed.

Lemma existsb_eqb (r : string) (l : list string) :
  In r l -> existsb (String.eqb r) l = true.
Proof.
  intros H. apply existsb_exists. exists r. split; [exact H|].
  apply String.eqb_refl.
Qed.

(** X13: the extension [main] adds serves [Top.__init__]: on a platform
    with the board's resources followed by the extension, where the board
    uses none of the extension's names, every pad [Top.__init__] connects
    under one of those names has at least one pin, every resource it
    requests under one of them is defined by the extension, and the SDRAM
    has 13 address, 2 bank and 16 data pins. *)
Theorem cape_extension_serves_the_requests_of_Top
  (q : PlatformObj) (board_io : list resource) (platform : Platform) :
  io q = board_io ++ cape_extension ->
  board_leaves_cape_names board_io ->
  (forall r i sub,
      In (r, i, sub) (pad_keys (Top bare platform)) ->
      In r cape_names ->
      0 < pins (platform_of q) r i sub)
  /\ (forall r i,
        In (r, i) (requested (Top bare platform)) ->
        In r cape_names ->
        exists cs, In (r, i, cs) cape_extension)
  /\ pins (platform_of q) "sdram" 0 "a" = 13
  /\ pins (platform_of q) "sdram" 0 "ba" = 2
  /\ pins (platform_of q) "sdram" 0 "dq" = 16.
Proof.
  intros Hq Hb. split; [|split].
  - intros r i sub Hin Hr. rewrite (pins_cape_platform q board_io r i sub Hq Hb Hr).
    rewrite pad_keys_Top in Hin.
    pose proof (proj1 (forallb_forall _ _) served_pad_keys _ Hin) as H.
    unfold served in H. rewrite (existsb_eqb r cape_names Hr) in H.
    cbn [implb] in H. apply Nat.ltb_lt. exact H.
  - intros r i Hin Hr. rewrite requested_Top_bare in Hin.
    pose proof (proj1 (forallb_forall _ _) defined_requested _ Hin) as H.
    unfold defined_by_cape in H. cbn [fst snd] in H.
    rewrite (existsb_eqb r cape_names Hr) in H. cbn [implb] in H.
    apply existsb_exists in H. destruct H as [[[n j] cs] [Hc He]].
    cbn [fst snd] in He. apply andb_true_iff in He. destruct He as [E1 E2].
    apply String.eqb_eq in E1. apply Nat.eqb_eq in E2. subst.
    exists cs. exact Hc.
  - assert (Hs : In "sdram" cape_names) by (vm_compute; tauto).
    rewrite !(pins_cape_platform q board_io "sdram" 0 _ Hq Hb Hs).
    vm_compute. repeat split.
Qed.

End CapeFacts.

(* ================================================================= *)
(** ** The netlist and the build on the sample board *)

Lemma every_bit_has_at_most_one_driver_witness :
  Gateware.only_extends Sample.soc_core
  /\ Migen.is_local Gateware.leds = true
  /\ List.length
       (Gateware.drivers (Gateware.Top Sample.soc_core Sample.board)
          Gateware.leds 0) <= 1.
Proof.
  split; [exact sample_only_extends|]. split; [reflexivity|].
  exact (proj2 (every_bit_has_at_most_one_driver Sample.soc_core Sample.board)
           sample_only_extends Gateware.leds 0 eq_refl).
Defined.

Lemma only_leds_3_and_the_two_resets_are_undriven_witness :
  Gateware.only_extends Sample.soc_core
  /\ In Gateware.leds Netlist.locals
  /\ 3 < Migen.nbits Gateware.leds
  /\ (Gateware.drivers (Gateware.Top Sample.soc_core Sample.board) Gateware.leds 3
      = []
      <-> Gateware.leds = Gateware.leds /\ 3 = 3).
Proof.
  assert (Hin : In Gateware.leds Netlist.locals) by (left; reflexivity).
  assert (Hlt : 3 < Migen.nbits Gateware.leds) by (cbn; lia).
  split; [exact sample_only_extends|]. split; [exact Hin|]. split; [exact Hlt|].
  exact (proj2 (proj2 (proj2 (proj2
           (only_leds_3_and_the_two_resets_are_undriven Sample.soc_core
              Sample.board))))
           sample_only_extends Gateware.leds 3 Hin Hlt).
Defined.

Lemma afi_outputs_are_never_read_witness :
  In Gateware.afi_half_clk Netlist.locals
  /\ (Netlist.reads (Gateware.Top Gateware.bare Sample.board) Gateware.afi_half_clk
      = false
      <-> Gateware.afi_half_clk = Gateware.afi_half_clk
          \/ Gateware.afi_half_clk = Gateware.afi_reset_export_n
          \/ Gateware.afi_half_clk = Gateware.afi_reset_n).
Proof.
  assert (Hin : In Gateware.afi_half_clk Netlist.locals)
    by (unfold Netlist.locals; cbn [In]; tauto).
  split; [exact Hin|].
  exact (proj1 (afi_outputs_are_never_read Sample.board) Gateware.afi_half_clk Hin).
Defined.

Lemma requested_and_connected_resources_witness :
  In ("clk50", 0) (Netlist.connected (Gateware.Top Gateware.bare Sample.board))
  /\ In ("clk50", 0) (Gateware.requested (Gateware.Top Gateware.bare Sample.board)).
Proof.
  assert (Hin : In ("clk50", 0)
                  (Netlist.connected (Gateware.Top Gateware.bare Sample.board))).
  { apply (subset_incl [("clk50", 0)]); [vm_compute; reflexivity|].
    left. reflexivity. }
  split; [exact Hin|].
  exact (proj1 (requested_and_connected_resources Sample.board) ("clk50", 0) Hin).
Defined.

Lemma bus_clock_is_the_system_clock_witness :
  Gateware.models Sample.rho (Gateware.Top Sample.soc_core Sample.board)
  /\ exists clk,
       Migen.port (Gateware.sys_top Sample.board) "ddr3_clk_i"
       = Some (Migen.Input, clk)
       /\ Migen.eval Sample.rho (Migen.ClockSignal "avalon")
          = Migen.eval Sample.rho clk
       /\ Migen.eval Sample.rho (Migen.ClockSignal "sys")
          = Migen.eval Sample.rho clk.
Proof.
  split; [exact sample_models|].
  exact (bus_clock_is_the_system_clock Sample.soc_core Sample.board Sample.rho
           sample_models).
Defined.

Lemma sample_sys_reset_undriven :
  Gateware.drivers (Gateware.Top Sample.soc_core Sample.board)
    (Migen.DomainRst "sys") 0 = [].
Proof. vm_compute. reflexivity. Qed.

Lemma controller_resets_follow_the_system_reset_witness :
  Gateware.models Sample.rho (Gateware.Top Sample.soc_core Sample.board)
  /\ Gateware.drivers (Gateware.Top Sample.soc_core Sample.board)
       (Migen.DomainRst "sys") 0 = []
  /\ exists rst_n,
       Migen.port (Gateware.ddr3 Sample.board) "global_reset_n"
       = Some (Migen.Input, rst_n)
       /\ Migen.eval Sample.rho rst_n = 1%Z.
Proof.
  split; [exact sample_models|]. split; [exact sample_sys_reset_undriven|].
  destruct (controller_resets_follow_the_system_reset Sample.soc_core Sample.board
              Sample.rho sample_models sample_sys_reset_undriven)
    as (rst_n & P & _ & _ & _ & E).
  exists rst_n. split; [exact P | exact E].
Defined.

Lemma both_instances_get_the_board_clock_witness :
  Gateware.only_extends Sample.soc_core
  /\ Gateware.models Sample.rho (Gateware.Top Sample.soc_core Sample.board)
  /\ exists ref,
       Migen.port (Gateware.ddr3 Sample.board) "pll_ref_clk"
       = Some (Migen.Input, ref)
       /\ Migen.port (Gateware.sys_top Sample.board) "CLK_50"
          = Some (Migen.Input, ref)
       /\ Migen.eval Sample.rho ref
          = Migen.trunc 1
              (Migen.eval Sample.rho
                 (Migen.Sig (Gateware.request Sample.board "clk50" 0 Gateware.whole))).
Proof.
  split; [exact sample_only_extends|]. split; [exact sample_models|].
  exact (both_instances_get_the_board_clock Sample.soc_core Sample.board Sample.rho
           sample_only_extends sample_models).
Defined.

Lemma sample_prepare :
  Steps.prepare Sample.externals "menu" Sample.world
  = (inr Sample.manifest_doc, Sample.prepared Sample.world).
Proof. vm_compute. reflexivity. Qed.

Lemma platform_is_configured_before_the_build_witness :
  Steps.prepare Sample.externals "menu" Sample.world
  = (inr Sample.manifest_doc, Sample.prepared Sample.world)
  /\ Build.platform (Sample.prepared Sample.world) = Some Sample.terasic_deca
  /\ Steps.unusable Sample.manifest_doc = None
  /\ Build.synthesize Sample.externals "menu" Sample.world
     = Steps.finish Sample.externals "menu"
         (Build.set_platform (Sample.prepared Sample.world)
            (Steps.configured Sample.externals
               (Build.cwd (Sample.prepared Sample.world))
               (Steps.defines_of Sample.manifest_doc)
               Sample.terasic_deca)).
Proof.
  split; [exact sample_prepare|]. split; [reflexivity|]. split; [reflexivity|].
  exact (platform_is_configured_before_the_build Sample.externals "menu"
           Sample.world (Sample.prepared Sample.world) Sample.manifest_doc
           Sample.terasic_deca sample_prepare eq_refl eq_refl).
Defined.

Lemma sample_prepare_odd :
  Steps.prepare Sample.externals "menu" Sample.world_with_odd_defines
  = (inr (Build.YMap [("defines", Build.YSeq [])]),
     Sample.prepared Sample.world_with_odd_defines).
Proof. vm_compute. reflexivity. Qed.

Lemma sample_prepare_empty :
  Steps.prepare Sample.externals "menu" Sample.world_with_empty_manifest
  = (inr Build.YNull, Sample.prepared Sample.world_with_empty_manifest).
Proof. vm_compute. reflexivity. Qed.

Lemma unusable_manifest_stops_main_after_the_settings_witness :
  Steps.prepare Sample.externals "menu" Sample.world_with_odd_defines
  = (inr (Build.YMap [("defines", Build.YSeq [])]),
     Sample.prepared Sample.world_with_odd_defines)
  /\ Build.platform (Sample.prepared Sample.world_with_odd_defines)
     = Some Sample.terasic_deca
  /\ Steps.unusable (Build.YMap [("defines", Build.YSeq [])]) = Some "update"
  /\ Build.main Sample.externals "menu" Sample.world_with_odd_defines
     = (inl (Build.AttributeError "update"),
        Build.set_platform (Sample.prepared Sample.world_with_odd_defines)
          (Steps.half_configured
             (Build.cwd (Sample.prepared Sample.world_with_odd_defines))
             Sample.terasic_deca)).
Proof.
  split; [exact sample_prepare_odd|]. split; [reflexivity|]. split; [reflexivity|].
  exact (unusable_manifest_stops_main_after_the_settings Sample.externals "menu"
           Sample.world_with_odd_defines
           (Sample.prepared Sample.world_with_odd_defines)
           (Build.YMap [("defines", Build.YSeq [])]) Sample.terasic_deca "update"
           sample_prepare_odd eq_refl eq_refl).
Defined.

Lemma sample_defines_distinct :
  NoDup (Build.keys (Steps.defines_of Sample.manifest_doc)).
Proof.
  cbn. repeat (constructor; [cbn [In]; intuition discriminate|]). constructor.
Qed.


(** The merge of the example of the specification, with the maps in the
    order [main] merges them: the one with the key A alone is the first
    map, and A takes the value of the map merged later. *)
Example merge_of_the_example :
  Build.update (Build.YMap [("A", Build.YInt 3)])
    [("A", Build.YInt 1); ("B", Build.YInt 2)] Sample.world
  = (inr [("A", Build.YInt 1); ("B", Build.YInt 2)], Sample.world).
Proof. reflexivity. Qed.

Lemma script_defines_override_the_manifest_witness :
  Steps.prepare Sample.externals "menu" Sample.world
  = (inr Sample.manifest_doc, Sample.prepared Sample.world)
  /\ Build.platform (Sample.prepared Sample.world) = Some Sample.terasic_deca
  /\ Steps.unusable Sample.manifest_doc = None
  /\ NoDup (Build.keys (Steps.defines_of Sample.manifest_doc))
  /\ (exists merged,
        Build.synthesize Sample.externals "menu" Sample.world
        = Steps.finish Sample.externals "menu"
            (Build.set_platform (Sample.prepared Sample.world)
               {| Build.io :=
                    Build.io Sample.terasic_deca ++ Build.cape_extension;
                  Build.commands :=
                    Build.commands Sample.terasic_deca
                    ++ Steps.qip_file (Build.cwd (Sample.prepared Sample.world))
                       :: Build.quartus_settings
                    ++ Steps.directives Sample.externals merged |})
        /\ forall k v,
             In (k, v) merged
             <-> (In k (Build.keys Build.baseline_defines) /\ v = Build.YInt 1)
                 \/ (~ In k (Build.keys Build.baseline_defines)
                     /\ In (k, v) (Steps.defines_of Sample.manifest_doc))).
Proof.
  split; [exact sample_prepare|]. split; [reflexivity|]. split; [reflexivity|].
  split; [exact sample_defines_distinct|].
  exact (script_defines_override_the_manifest Sample.externals "menu"
           Sample.world (Sample.prepared Sample.world) Sample.manifest_doc
           Sample.terasic_deca sample_prepare eq_refl eq_refl
           sample_defines_distinct).
Defined.

Lemma sample_load :
  Build.load Sample.externals (Build.manifest "menu") Sample.world
  = (inr Sample.manifest_doc, Sample.world).
Proof. vm_compute. reflexivity. Qed.

Lemma manifest_error_leaves_everything_untouched_witness :
  Build.manifest_error Sample.externals Sample.world_without_manifest "menu"
  /\ (exists e,
        Build.main Sample.externals "menu" Sample.world_without_manifest
        = (inl e, Sample.world_without_manifest))
  /\ snd (Build.main Sample.externals "menu" Sample.world) <> Sample.world
  /\ (exists text doc,
        Build.dict_get (Build.files Sample.world) (Build.manifest "menu") = Some text
        /\ Build.yaml_load Sample.externals text = inr doc)
  /\ Build.load Sample.externals (Build.manifest "menu") Sample.world
     = (inr Sample.manifest_doc, Sample.world)
  /\ Build.synthesize Sample.externals "menu" Sample.world
     = Build.bind
         (Build.add_designfiles Sample.externals (Build.join "cores" "menu")
            Sample.manifest_doc "quartus")
         (fun _ =>
            Build.bind
              (Build.generate_build_id Sample.externals (Build.join "cores" "menu"))
              (fun _ =>
                 Build.bind
                   (Build.add_mainfile Sample.externals (Build.join "cores" "menu")
                      Sample.manifest_doc)
                   (fun _ =>
                      Build.bind (Steps.configure Sample.externals Sample.manifest_doc)
                        (fun _ => Steps.finish Sample.externals "menu"))))
         (Build.set_platform Sample.world
            {| Build.io := Build.terasic_deca_io Sample.externals;
               Build.commands := Build.terasic_deca_commands Sample.externals |}).
Proof.
  assert (H1 : Build.manifest_error Sample.externals Sample.world_without_manifest "menu")
    by (left; reflexivity).
  assert (H2 : snd (Build.main Sample.externals "menu" Sample.world) <> Sample.world)
    by (intros H; apply (f_equal Build.platform) in H; vm_compute in H; discriminate).
  split; [exact H1|]. split.
  - exact (proj1 (manifest_error_leaves_everything_untouched
                    Sample.externals "menu" Sample.world_without_manifest) H1).
  - split; [exact H2|]. split.
    + exact (proj1 (proj2 (manifest_error_leaves_everything_untouched
                             Sample.externals "menu" Sample.world)) H2).
    + split; [exact sample_load|].
      exact (proj2 (proj2 (manifest_error_leaves_everything_untouched
                             Sample.externals "menu" Sample.world))
               Sample.manifest_doc sample_load).
Defined.

(** C7 as stated fails: a manifest whose defines are a list, and a manifest
    with nothing in it, both parse; [main] raises on each, and by then the
    platform object exists and holds 31 commands, the one the sample board
    starts with, the QIP_FILE command and the 29 settings. *)
Lemma malformed_manifest_fails_after_the_platform_exists :
  Build.yaml_load Sample.externals "defines: []"
  = inr (Build.YMap [("defines", Build.YSeq [])])
  /\ Build.platform Sample.world_with_odd_defines = None
  /\ Build.main Sample.externals "menu" Sample.world_with_odd_defines
     = (inl (Build.AttributeError "update"),
        Build.set_platform (Sample.prepared Sample.world_with_odd_defines)
          (Steps.half_configured "/work" Sample.terasic_deca))
  /\ Build.yaml_load Sample.externals "# nothing" = inr Build.YNull
  /\ Build.platform Sample.world_with_empty_manifest = None
  /\ Build.main Sample.externals "menu" Sample.world_with_empty_manifest
     = (inl (Build.AttributeError "get"),
        Build.set_platform (Sample.prepared Sample.world_with_empty_manifest)
          (Steps.half_configured "/work" Sample.terasic_deca))
  /\ List.length (Build.commands (Steps.half_configured "/work" Sample.terasic_deca))
     = 31.
Proof.
  split; [reflexivity|]. split; [reflexivity|].
  split; [vm_compute; reflexivity|].
  split; [reflexivity|]. split; [reflexivity|].
  split; [vm_compute; reflexivity | reflexivity].
Qed.

Lemma sample_board_leaves_cape_names :
  Steps.board_leaves_cape_names (Build.terasic_deca_io Sample.externals).
Proof.
  unfold Steps.board_leaves_cape_names.
  repeat (constructor; [cbn; intuition discriminate|]). constructor.
Qed.

Lemma cape_extension_serves_the_requests_of_Top_witness :
  Build.io (Steps.configured Sample.externals "/work" [] Sample.terasic_deca)
  = Build.terasic_deca_io Sample.externals ++ Build.cape_extension
  /\ Steps.board_leaves_cape_names (Build.terasic_deca_io Sample.externals)
  /\ In ("sdram", 0, "a")
       (Steps.pad_keys (Gateware.Top Gateware.bare Sample.board))
  /\ In "sdram" Steps.cape_names
  /\ 0 < Gateware.pins
           (Build.platform_of
              (Steps.configured Sample.externals "/work" [] Sample.terasic_deca))
           "sdram" 0 "a".
Proof.
  assert (K : In ("sdram", 0, "a")
                (Steps.pad_keys (Gateware.Top Gateware.bare Sample.board))).
  { rewrite pad_keys_Top. vm_compute. auto 100. }
  assert (N : In "sdram" Steps.cape_names) by (vm_compute; auto 10).
  split; [reflexivity|]. split; [exact sample_board_leaves_cape_names|].
  split; [exact K|]. split; [exact N|].
  exact (proj1 (cape_extension_serves_the_requests_of_Top
                  (Steps.configured Sample.externals "/work" [] Sample.terasic_deca)
                  (Build.terasic_deca_io Sample.externals) Sample.board
                  eq_refl sample_board_leaves_cape_names)
           "sdram" 0 "a" K N).
Defined.
